(** * The L2 consensus API of eth/catalyst/l2_api.go

    A shallow embedding of [l2ConsensusAPI] (AssembleL2Block, ValidateL2Block,
    NewL2Block, paramsToBlock, VerifyBlock) and the properties of its
    verified-result cache.

    The API object holds the backend [eth] and the map [verified]; every
    method runs in a state monad over that object.  The packages the file
    imports (core/types, consensus, miner, core) are not part of the unit:
    what the API consumes of them is gathered in two interfaces, [TypesLib]
    and [Ethereum], and the development is parametric in both.  Calls that
    reach a collaborator are recorded in a journal, so that statements such
    as "the executor is not invoked" can be written down.  The [log.*] calls
    have no effect on the API object or on a result and are left out. *)

From Stdlib Require Import ZArith NArith List String Ascii Lia.
From Stdlib Require Strings.Byte.
From stdpp Require Import base option list gmap countable pretty.

Open Scope Z_scope.

(** ** Data *)

Definition bytes := list Byte.byte.

(** [common.Hash] is a [32]byte, [common.Address] a [20]byte; both are kept
    as the number they spell in big-endian order. *)
Definition Hash := N.
Definition Address := N.

(** [time.Time] and [time.Duration] as nanosecond counts. *)
Definition Time := Z.
Definition Duration := Z.

(** Modelled from the spec: [types.BLSData] is declared in core/types; the
    spec only says it is out-of-band aggregate-signature data attached to
    the header before hashing.  It is kept as an opaque payload whose zero
    value [types.BLSData{}] is the empty one. *)
Definition BLSData := bytes.
Definition BLSData_zero : BLSData := [].

(** [types.Bloom] is a [256]byte. *)
Definition Bloom := bytes.

(** uint64 arithmetic, with the wrap-around written out. *)
Definition two64 : Z := 2 ^ 64.
Definition u64 (z : Z) : Z := z mod two64.

(** Go's conversion [int64(u)] of a uint64. *)
Definition int64_of_u64 (u : Z) : Z :=
  if u <? 2 ^ 63 then u else u - two64.

(** [big.Int.Uint64]: the low 64 bits of the magnitude. *)
Definition big_Uint64 (x : Z) : Z := Z.abs x mod two64.

(** [types.Header], with the fields l2_api.go reads or writes and the
    difficulty placeholder the engine's Prepare hook fills. *)
Record Header := mkHeader {
  h_ParentHash : Hash;
  h_Coinbase : Address;
  h_Root : Hash;
  h_TxHash : Hash;
  h_ReceiptHash : Hash;
  h_Bloom : Bloom;
  h_Difficulty : Z;
  h_Number : Z;            (* big.Int *)
  h_GasLimit : Z;          (* uint64 *)
  h_GasUsed : Z;           (* uint64 *)
  h_Time : Z;              (* uint64 *)
  h_Extra : bytes;
  h_BaseFee : option Z;    (* big.Int, nil before London *)
  h_BLSData : BLSData
}.

(** [types.Block]: a header and a body (no uncles on this chain). *)
Record Block (Tx : Type) := mkBlock {
  b_header : Header;
  b_transactions : list Tx
}.
Arguments mkBlock {Tx} _ _.
Arguments b_header {Tx} _.
Arguments b_transactions {Tx} _.

(** [AssembleL2BlockParams] and [ExecutableL2Data], the wire-level candidate
    block descriptor. *)
Record AssembleL2BlockParams := mkAssembleParams {
  ap_Number : Z;                 (* uint64 *)
  ap_Transactions : list bytes
}.

Record ExecutableL2Data := mkExecutableL2Data {
  ParentHash : Hash;
  Number : Z;                    (* uint64 *)
  Miner : Address;
  Timestamp : Z;                 (* uint64 *)
  GasLimit : Z;                  (* uint64 *)
  BaseFee : option Z;
  Extra : bytes;
  Transactions : list bytes;
  StateRoot : Hash;
  GasUsed : Z;                   (* uint64 *)
  ReceiptRoot : Hash;
  LogsBloom : bytes
}.

Record GenericResponse := mkGenericResponse { Success : bool }.

(** ** Errors

    The errors the file builds itself keep the values their message is
    formatted from; [ErrOther] stands for an error made by a collaborator. *)
Inductive error :=
| ErrDiscontinuous (actual expected : Z)
    (* "cannot assemble block with discontinuous block number %d, expected number is %d" *)
| ErrWrongParent (actual expected : Hash)
    (* "wrong parent hash: %s, expected parent hash is %s" *)
| ErrTxNotValid (i : nat) (cause : error)
    (* "transaction %d is not valid: %v" *)
| ErrInvalidTxCount
    (* "invalid tx count" *)
| ErrOther (msg : string).

(** [common.Hash.String]: 0x and the 64 hex digits of the 32 bytes. *)
Definition hex_digit (n : N) : ascii :=
  match n with
  | 0%N => "0" | 1%N => "1" | 2%N => "2" | 3%N => "3" | 4%N => "4"
  | 5%N => "5" | 6%N => "6" | 7%N => "7" | 8%N => "8" | 9%N => "9"
  | 10%N => "a" | 11%N => "b" | 12%N => "c" | 13%N => "d" | 14%N => "e"
  | _ => "f"
  end%char.

Fixpoint hex_fixed (digits : nat) (n : N) (acc : string) : string :=
  match digits with
  | O => acc
  | S d => hex_fixed d (N.div n 16) (String (hex_digit (N.modulo n 16)) acc)
  end.

Definition Hash_String (h : Hash) : string :=
  ("0x" ++ hex_fixed 64 h "")%string.

(** [error.Error]: the message of an error. *)
Fixpoint Error (e : error) : string :=
  match e with
  | ErrDiscontinuous actual expected =>
      "cannot assemble block with discontinuous block number " ++ pretty actual
      ++ ", expected number is " ++ pretty expected
  | ErrWrongParent actual expected =>
      "wrong parent hash: " ++ Hash_String actual
      ++ ", expected parent hash is " ++ Hash_String expected
  | ErrTxNotValid i cause =>
      "transaction " ++ pretty (Z.of_nat i) ++ " is not valid: " ++ Error cause
  | ErrInvalidTxCount => "invalid tx count"
  | ErrOther msg => msg
  end%string.

(** ** Collaborators *)

(** What l2_api.go uses of core/types and of the codec helpers of its own
    package (decodeTransactions and encodeTransactions live in another file
    of eth/catalyst). *)
Class TypesLib := {
  Transaction : Type;
  (* types.Transaction.UnmarshalBinary *)
  UnmarshalBinary : bytes -> error + Transaction;
  decodeTransactions : list bytes -> error + list Transaction;
  encodeTransactions : list Transaction -> list bytes;
  (* types.Header.Hash, the content hash of a header *)
  hashHeader : Header -> Hash;
  (* types.DeriveSha over a fresh stack trie *)
  DeriveSha : list Transaction -> Hash;
  EmptyRootHash : Hash;
  BytesToBloom : bytes -> Bloom;
  Bloom_Bytes : Bloom -> bytes
}.

(** What l2_api.go uses of the backend [eth.Ethereum]: the chain store
    (current head, ProcessBlock, WriteStateAndSetHead, the body validator,
    the chain configuration), the consensus engine and the miner.  [Eth] is
    the state of the backend.  Only WriteStateAndSetHead returns a new one. *)
Class Ethereum `{TypesLib} := {
  Eth : Type;
  StateDB : Type;
  Receipts : Type;
  (* BlockChain().CurrentHeader() and BlockChain().CurrentBlock() *)
  CurrentHeader : Eth -> Header;
  CurrentBlock : Eth -> Block Transaction;
  (* Miner().GetSealingBlockAndState(parentHash, timestamp, transactions) *)
  GetSealingBlockAndState :
    Eth -> Hash -> Time -> list Transaction ->
    error + (Block Transaction * StateDB * Receipts);
  (* BlockChain().ProcessBlock(block, parent) *)
  ProcessBlock :
    Eth -> Block Transaction -> Header -> error + (StateDB * Receipts * Duration);
  (* BlockChain().WriteStateAndSetHead(block, receipts, state, procTime) *)
  WriteStateAndSetHead :
    Eth -> Block Transaction -> Receipts -> StateDB -> Duration ->
    option error * Eth;
  (* Engine().Prepare(chain, header): updates the header in place; the
     error it returns is dropped by the caller *)
  Prepare : Eth -> Header -> Header;
  (* Engine().VerifyHeader(chain, header, seal) *)
  VerifyHeader : Eth -> Header -> bool -> option error;
  (* BlockChain().Validator().ValidateBody(block) *)
  ValidateBody : Eth -> Block Transaction -> option error;
  (* BlockChain().Config().Scroll.IsValidTxCount(count) *)
  IsValidTxCount : Eth -> nat -> bool
}.

(** ** The API object and its monad *)

Section API.
Context `{E : Ethereum}.

(** [executionResult]: what a cache entry stores. *)
Record executionResult := mkExecutionResult {
  er_block : Block Transaction;
  er_state : StateDB;
  er_receipts : Receipts;
  er_procTime : Duration
}.

(** A call that reached a collaborator, with its arguments. *)
Inductive Call :=
| CallGetSealingBlockAndState (parent : Hash) (timestamp : Time)
    (transactions : list Transaction)
| CallPrepare (header : Header)
| CallVerifyHeader (header : Header) (seal : bool)
| CallIsValidTxCount (count : nat)
| CallValidateBody (block : Block Transaction)
| CallProcessBlock (block : Block Transaction) (parent : Header)
| CallWriteStateAndSetHead (block : Block Transaction) (receipts : Receipts)
    (state : StateDB) (procTime : Duration).

(** [l2ConsensusAPI]: the backend, the verified-result cache, and the
    journal of collaborator calls made so far (oldest first). *)
Record l2ConsensusAPI := mkAPI {
  eth : Eth;
  verified : gmap Hash executionResult;
  journal : list Call
}.

(** [newL2ConsensusAPI] *)
Definition newL2ConsensusAPI (backend : Eth) : l2ConsensusAPI :=
  {| eth := backend; verified := ∅; journal := [] |}.

Definition M (A : Type) : Type := l2ConsensusAPI -> A * l2ConsensusAPI.

#[export] Instance M_ret : MRet M := fun A a api => (a, api).
#[export] Instance M_bind : MBind M :=
  fun A B k m api => let (a, api') := m api in k a api'.

Definition backend : M Eth := fun api => (eth api, api).

(** The API object after one more collaborator call has been journalled. *)
Definition logged (c : Call) (api : l2ConsensusAPI) : l2ConsensusAPI :=
  {| eth := eth api; verified := verified api; journal := journal api ++ [c] |}.

Definition record (c : Call) : M unit := fun api => (tt, logged c api).

(** Whether the journal holds a call of the executor's re-execution path. *)
Definition isProcessBlock (c : Call) : bool :=
  match c with
  | CallProcessBlock _ _ => true
  | _ => false
  end.

Definition reachedExecutor (api : l2ConsensusAPI) : bool :=
  existsb isProcessBlock (journal api).

(** Reads of the head. *)
Definition chain_CurrentHeader : M Header :=
  e ← backend; mret (CurrentHeader e).

Definition chain_CurrentBlock : M (Block Transaction) :=
  e ← backend; mret (CurrentBlock e).

(** Calls into the miner, the engine, the validator and the chain. *)
Definition miner_GetSealingBlockAndState (parent : Hash) (timestamp : Time)
    (transactions : list Transaction)
  : M (error + (Block Transaction * StateDB * Receipts)) :=
  e ← backend;
  _ ← record (CallGetSealingBlockAndState parent timestamp transactions);
  mret (GetSealingBlockAndState e parent timestamp transactions).

Definition engine_Prepare (header : Header) : M Header :=
  e ← backend;
  _ ← record (CallPrepare header);
  mret (Prepare e header).

Definition engine_VerifyHeader (header : Header) (seal : bool)
  : M (option error) :=
  e ← backend;
  _ ← record (CallVerifyHeader header seal);
  mret (VerifyHeader e header seal).

Definition config_IsValidTxCount (count : nat) : M bool :=
  e ← backend;
  _ ← record (CallIsValidTxCount count);
  mret (IsValidTxCount e count).

Definition validator_ValidateBody (block : Block Transaction)
  : M (option error) :=
  e ← backend;
  _ ← record (CallValidateBody block);
  mret (ValidateBody e block).

Definition chain_ProcessBlock (block : Block Transaction) (parent : Header)
  : M (error + (StateDB * Receipts * Duration)) :=
  e ← backend;
  _ ← record (CallProcessBlock block parent);
  mret (ProcessBlock e block parent).

Definition chain_WriteStateAndSetHead (block : Block Transaction)
    (receipts : Receipts) (state : StateDB) (procTime : Duration)
  : M (option error) :=
  fun api =>
    let (err, e') :=
      WriteStateAndSetHead (eth api) block receipts state procTime in
    (err, {| eth := e'; verified := verified api;
             journal := journal api ++
               [CallWriteStateAndSetHead block receipts state procTime] |}).

(** The three ways the code touches [api.verified]. *)
Definition verified_lookup (h : Hash) : M (option executionResult) :=
  fun api => (verified api !! h, api).

Definition verified_store (h : Hash) (r : executionResult) : M unit :=
  fun api =>
    (tt, {| eth := eth api; verified := <[h := r]> (verified api);
            journal := journal api |}).

Definition verified_reset : M unit :=
  fun api => (tt, {| eth := eth api; verified := ∅; journal := journal api |}).

(** ** Accessors of core/types *)

Definition Block_Hash (b : Block Transaction) : Hash := hashHeader (b_header b).
Definition Block_NumberU64 (b : Block Transaction) : Z :=
  big_Uint64 (h_Number (b_header b)).
Definition Block_TxHash (b : Block Transaction) : Hash := h_TxHash (b_header b).

(** ** The methods of l2_api.go *)

(** The decoding loop of AssembleL2Block: [i] is the index of the head of
    [otxs], [transactions] what has been appended so far. *)
Fixpoint unmarshalTransactions (i : nat) (otxs : list bytes)
    (transactions : list Transaction) : error + list Transaction :=
  match otxs with
  | [] => inr transactions
  | otx :: rest =>
      match UnmarshalBinary otx with
      | inl err => inl (ErrTxNotValid i err)
      | inr tx => unmarshalTransactions (S i) rest (transactions ++ [tx])
      end
  end.

(** The descriptor AssembleL2Block returns for [block].  The literal names
    eleven fields; Extra is not among them and keeps its zero value. *)
Definition blockToParams (block : Block Transaction) : ExecutableL2Data :=
  let h := b_header block in
  {| ParentHash := h_ParentHash h;
     Number := Block_NumberU64 block;
     Miner := h_Coinbase h;
     Timestamp := h_Time h;
     GasLimit := h_GasLimit h;
     BaseFee := h_BaseFee h;
     Extra := [];
     Transactions := encodeTransactions (b_transactions block);
     StateRoot := h_Root h;
     GasUsed := h_GasUsed h;
     ReceiptRoot := h_ReceiptHash h;
     LogsBloom := Bloom_Bytes (h_Bloom h) |}.

(** [AssembleL2Block].  The wall clock is read three times: [start] is
    [time.Now()] before the call to the miner, [now] the timestamp handed to
    it, [finish] the instant [time.Since(start)] is taken. *)
Definition AssembleL2Block (params : AssembleL2BlockParams)
    (start now finish : Time) : M (error + option ExecutableL2Data) :=
  parent ← chain_CurrentHeader;
  let expectedBlockNumber := u64 (big_Uint64 (h_Number parent) + 1) in
  if decide (ap_Number params ≠ expectedBlockNumber) then
    mret (inl (ErrDiscontinuous (ap_Number params) expectedBlockNumber))
  else
    match unmarshalTransactions 0 (ap_Transactions params) [] with
    | inl err => mret (inl err)
    | inr transactions =>
        r ← miner_GetSealingBlockAndState (hashHeader parent) now transactions;
        match r with
        | inl err => mret (inl err)
        | inr (block, state, receipts) =>
            (* Do not produce new block if no transaction is involved *)
            if decide (Block_TxHash block = EmptyRootHash) then
              mret (inr None)
            else
              _ ← verified_store (Block_Hash block)
                    {| er_block := block; er_state := state;
                       er_receipts := receipts;
                       er_procTime := finish - start |};
              mret (inr (Some (blockToParams block)))
        end
    end.

(** The header literal [paramsToBlock] starts from: the fields it does not
    name keep their zero value. *)
Definition headerOfParams (params : ExecutableL2Data) (blsData : BLSData)
  : Header :=
  {| h_ParentHash := ParentHash params;
     h_Coinbase := Miner params;
     h_Root := 0%N;
     h_TxHash := 0%N;
     h_ReceiptHash := 0%N;
     h_Bloom := [];
     h_Difficulty := 0;
     h_Number := int64_of_u64 (Number params);
     h_GasLimit := GasLimit params;
     h_GasUsed := GasUsed params;
     h_Time := Timestamp params;
     h_Extra := Extra params;
     h_BaseFee := BaseFee params;
     h_BLSData := blsData |}.

(** The four assignments [paramsToBlock] makes after the engine has
    prepared the header: the transaction root is derived, the receipt root,
    state root and bloom are copied from the descriptor. *)
Definition setRoots (header : Header) (params : ExecutableL2Data)
    (txs : list Transaction) : Header :=
  {| h_ParentHash := h_ParentHash header;
     h_Coinbase := h_Coinbase header;
     h_Root := StateRoot params;
     h_TxHash := DeriveSha txs;
     h_ReceiptHash := ReceiptRoot params;
     h_Bloom := BytesToBloom (LogsBloom params);
     h_Difficulty := h_Difficulty header;
     h_Number := h_Number header;
     h_GasLimit := h_GasLimit header;
     h_GasUsed := h_GasUsed header;
     h_Time := h_Time header;
     h_Extra := h_Extra header;
     h_BaseFee := h_BaseFee header;
     h_BLSData := h_BLSData header |}.

(** [paramsToBlock] *)
Definition paramsToBlock (params : ExecutableL2Data) (blsData : BLSData)
  : M (error + Block Transaction) :=
  header ← engine_Prepare (headerOfParams params blsData);
  match decodeTransactions (Transactions params) with
  | inl err => mret (inl err)
  | inr txs =>
      mret (inr {| b_header := setRoots header params txs;
                   b_transactions := txs |})
  end.

(** [VerifyBlock] *)
Definition VerifyBlock (block : Block Transaction) : M (option error) :=
  r ← engine_VerifyHeader (b_header block) false;
  match r with
  | Some err => mret (Some err)
  | None =>
      ok ← config_IsValidTxCount (length (b_transactions block));
      if (ok : bool) then mret None else mret (Some ErrInvalidTxCount)
  end.

(** [ValidateL2Block] *)
Definition ValidateL2Block (params : ExecutableL2Data)
  : M (error + GenericResponse) :=
  parent ← chain_CurrentBlock;
  let expectedBlockNumber := u64 (Block_NumberU64 parent + 1) in
  if decide (Number params ≠ expectedBlockNumber) then
    mret (inl (ErrDiscontinuous (Number params) expectedBlockNumber))
  else if decide (ParentHash params ≠ Block_Hash parent) then
    mret (inl (ErrWrongParent (ParentHash params) (Block_Hash parent)))
  else
    r ← paramsToBlock params BLSData_zero;
    match r with
    | inl err => mret (inl err)
    | inr block =>
        hit ← verified_lookup (Block_Hash block);
        match hit with
        | Some _ => mret (inr {| Success := true |})
        | None =>
            verr ← VerifyBlock block;
            match verr with
            | Some _ => mret (inr {| Success := false |})
            | None =>
                berr ← validator_ValidateBody block;
                match berr with
                | Some _ => mret (inr {| Success := false |})
                | None =>
                    p ← chain_ProcessBlock block (b_header parent);
                    match p with
                    | inl _ => mret (inr {| Success := false |})
                    | inr (stateDB, receipts, procTime) =>
                        _ ← verified_store (Block_Hash block)
                              {| er_block := block; er_state := stateDB;
                                 er_receipts := receipts;
                                 er_procTime := procTime |};
                        mret (inr {| Success := true |})
                    end
                end
            end
        end
    end.

(** [NewL2Block] *)
Definition NewL2Block (params : ExecutableL2Data) (bls : BLSData)
  : M (option error) :=
  parent ← chain_CurrentBlock;
  let expectedBlockNumber := u64 (Block_NumberU64 parent + 1) in
  if decide (Number params ≠ expectedBlockNumber) then
    mret (Some (ErrDiscontinuous (Number params) expectedBlockNumber))
  else if decide (ParentHash params ≠ Block_Hash parent) then
    mret (Some (ErrWrongParent (ParentHash params) (Block_Hash parent)))
  else
    r ← paramsToBlock params bls;
    match r with
    | inl err => mret (Some err)
    | inr block =>
        hit ← verified_lookup (Block_Hash block);
        match hit with
        | Some bas =>
            err ← chain_WriteStateAndSetHead block (er_receipts bas)
                    (er_state bas) (er_procTime bas);
            match err with
            | None => _ ← verified_reset; mret None
            | Some _ => mret err
            end
        | None =>
            verr ← VerifyBlock block;
            match verr with
            | Some err => mret (Some err)
            | None =>
                p ← chain_ProcessBlock block (b_header parent);
                match p with
                | inl err => mret (Some err)
                | inr (stateDB, receipts, procTime) =>
                    chain_WriteStateAndSetHead block receipts stateDB procTime
                end
            end
        end
    end.

(** ** Observations on an API object *)

(** Whether a journal entry is a write to the chain store. *)
Definition isStoreWrite (c : Call) : bool :=
  match c with
  | CallWriteStateAndSetHead _ _ _ _ => true
  | _ => false
  end.

(** Every cache entry sits under the content hash of the block it stores. *)
Definition cacheKeyed (api : l2ConsensusAPI) : Prop :=
  forall k r, verified api !! k = Some r -> k = Block_Hash (er_block r).

(** [header] with the difficulty replaced, the one field of the model an
    engine's Prepare hook is expected to fill. *)
Definition withDifficulty (d : Z) (header : Header) : Header :=
  {| h_ParentHash := h_ParentHash header;
     h_Coinbase := h_Coinbase header;
     h_Root := h_Root header;
     h_TxHash := h_TxHash header;
     h_ReceiptHash := h_ReceiptHash header;
     h_Bloom := h_Bloom header;
     h_Difficulty := d;
     h_Number := h_Number header;
     h_GasLimit := h_GasLimit header;
     h_GasUsed := h_GasUsed header;
     h_Time := h_Time header;
     h_Extra := h_Extra header;
     h_BaseFee := h_BaseFee header;
     h_BLSData := h_BLSData header |}.

End API.

(** ** Registration of the engine API *)

Section Registration.
Context `{E : Ethereum}.

(** [BlockChain().Config().TerminalTotalDifficulty]: a big.Int pointer, nil
    on a chain configured without one. *)
Variable TerminalTotalDifficulty : Eth -> option Z.

(** [rpc.API], with the service being the consensus API object. *)
Record rpcAPI := mkRpcAPI {
  Namespace : string;
  Version : string;
  Service : l2ConsensusAPI;
  Public : bool;
  Authenticated : bool
}.

(** [node.Node], as far as registration goes: the APIs registered so far,
    to which [RegisterAPIs] appends. *)
Definition Node := list rpcAPI.

Definition RegisterAPIs (apis : list rpcAPI) (stack : Node) : Node :=
  stack ++ apis.

(** [RegisterL2Engine] *)
Definition RegisterL2Engine (stack : Node) (backend : Eth)
  : option error * Node :=
  match TerminalTotalDifficulty backend with
  | None =>
      (Some (ErrOther "catalyst started without valid total difficulty"),
       stack)
  | Some _ =>
      (None,
       RegisterAPIs
         [ {| Namespace := "engine";
              Version := "1.0";
              Service := newL2ConsensusAPI backend;
              Public := true;
              Authenticated := true |} ]
         stack)
  end.

End Registration.

(** ** A deterministic backend

    A small chain on which the methods can be run: transactions are single
    bytes, the miner stamps its configured extra data on the blocks it
    seals, the store can be switched read-only.  The header hash is an
    injective code of the header. *)

Module Devnet.

Definition codeBytes (b : bytes) : list N := Byte.to_N <$> b.

Definition codeZ (z : Z) : N := Npos (encode z).
Definition codeOptZ (z : option Z) : N := Npos (encode z).
Definition codeField (b : bytes) : N := Npos (encode (codeBytes b)).

Definition headerFields (h : Header) : list N :=
  [ h_ParentHash h; h_Coinbase h; h_Root h; h_TxHash h; h_ReceiptHash h;
    codeField (h_Bloom h); codeZ (h_Difficulty h); codeZ (h_Number h);
    codeZ (h_GasLimit h); codeZ (h_GasUsed h); codeZ (h_Time h);
    codeField (h_Extra h); codeOptZ (h_BaseFee h); codeField (h_BLSData h) ].

Definition headerCode (h : Header) : Hash := Npos (encode (headerFields h)).

Definition unmarshal (otx : bytes) : error + Byte.byte :=
  match otx with
  | [b] => inr b
  | _ => inl (ErrOther "transaction type not supported")
  end.

Fixpoint decodeAll (enc : list bytes) : error + list Byte.byte :=
  match enc with
  | [] => inr []
  | otx :: rest =>
      match unmarshal otx with
      | inl _ => inl (ErrOther "invalid transaction")
      | inr tx =>
          match decodeAll rest with
          | inl err => inl err
          | inr txs => inr (tx :: txs)
          end
      end
  end.

Definition txRoot (txs : list Byte.byte) : Hash :=
  Npos (encode (codeBytes txs)).

#[export] Instance types : TypesLib := {|
  Transaction := Byte.byte;
  UnmarshalBinary := unmarshal;
  decodeTransactions := decodeAll;
  encodeTransactions := map (fun tx => [tx]);
  hashHeader := headerCode;
  DeriveSha := txRoot;
  EmptyRootHash := txRoot [];
  BytesToBloom := fun b => b;
  Bloom_Bytes := fun b => b
|}.

Record Chain := mkChain {
  head : Block Byte.byte;
  minerExtra : bytes;
  writable : bool
}.

Definition gasUsedBy (txs : list Byte.byte) : Z := 21000 * Z.of_nat (length txs).

Definition seal (c : Chain) (parent : Hash) (timestamp : Time)
    (txs : list Byte.byte) : Block Byte.byte :=
  {| b_header :=
       {| h_ParentHash := parent;
          h_Coinbase := 0%N;
          h_Root := N.of_nat (length txs);
          h_TxHash := txRoot txs;
          h_ReceiptHash := N.of_nat (length txs);
          h_Bloom := [];
          h_Difficulty := 0;
          h_Number := h_Number (b_header (head c)) + 1;
          h_GasLimit := 30000000;
          h_GasUsed := gasUsedBy txs;
          h_Time := timestamp;
          h_Extra := minerExtra c;
          h_BaseFee := None;
          h_BLSData := [] |};
     b_transactions := txs |}.

#[export] Instance chain : Ethereum := {|
  Eth := Chain;
  StateDB := list Byte.byte;
  Receipts := nat;
  CurrentHeader := fun c => b_header (head c);
  CurrentBlock := head;
  GetSealingBlockAndState := fun c parent timestamp txs =>
    inr (seal c parent timestamp txs, txs, length txs);
  ProcessBlock := fun c block parent =>
    if decide (h_GasUsed (b_header block) = gasUsedBy (b_transactions block))
    then inr (b_transactions block, length (b_transactions block), 5)
    else inl (ErrOther "invalid gas used");
  WriteStateAndSetHead := fun c block receipts state procTime =>
    if writable c
    then (None, {| head := block; minerExtra := minerExtra c;
                   writable := true |})
    else (Some (ErrOther "read-only file system"), c);
  Prepare := fun c header => header;
  VerifyHeader := fun c header seal =>
    if decide (h_Time (b_header (head c)) < h_Time header) then None
    else Some (ErrOther "invalid timestamp");
  ValidateBody := fun c block =>
    if decide (h_TxHash (b_header block) = txRoot (b_transactions block))
    then None
    else Some (ErrOther "transaction root hash mismatch");
  IsValidTxCount := fun c count => bool_decide (count ≤ 100)%nat
|}.

Definition genesis : Block Byte.byte :=
  {| b_header :=
       {| h_ParentHash := 0%N; h_Coinbase := 0%N; h_Root := 0%N;
          h_TxHash := txRoot []; h_ReceiptHash := 0%N; h_Bloom := [];
          h_Difficulty := 0; h_Number := 0; h_GasLimit := 30000000;
          h_GasUsed := 0; h_Time := 0; h_Extra := []; h_BaseFee := None;
          h_BLSData := [] |};
     b_transactions := [] |}.

Definition genesisHash : Hash := headerCode (b_header genesis).

(** The descriptor of the block with transactions [txs] sealed at
    [timestamp] on top of [parent]. *)
Definition descriptor (number : Z) (parent : Hash) (timestamp : Z)
    (txs : list Byte.byte) : ExecutableL2Data :=
  {| ParentHash := parent;
     Number := number;
     Miner := 0%N;
     Timestamp := timestamp;
     GasLimit := 30000000;
     BaseFee := None;
     Extra := [];
     Transactions := map (fun tx => [tx]) txs;
     StateRoot := N.of_nat (length txs);
     GasUsed := gasUsedBy txs;
     ReceiptRoot := N.of_nat (length txs);
     LogsBloom := [] |}.

(** Candidates for block 1: two valid ones, one whose timestamp is not
    after the head's, one that skips numbers, one on an unknown parent. *)
Definition candidateA : ExecutableL2Data :=
  descriptor 1 genesisHash 20 [Byte.x01].
Definition candidateB : ExecutableL2Data :=
  descriptor 1 genesisHash 20 [Byte.x02].
Definition staleCandidate : ExecutableL2Data :=
  descriptor 1 genesisHash 0 [Byte.x01].
Definition skippingCandidate : ExecutableL2Data :=
  descriptor 7 genesisHash 20 [Byte.x01].
Definition orphanCandidate : ExecutableL2Data :=
  descriptor 1 255%N 20 [Byte.x01].

(** Requests to the assembler: two transactions, none, five of which the
    third is not a transaction, and the last for a number that is not
    next. *)
Definition order : AssembleL2BlockParams :=
  {| ap_Number := 1; ap_Transactions := [[Byte.x01]; [Byte.x02]] |}.
Definition emptyOrder : AssembleL2BlockParams :=
  {| ap_Number := 1; ap_Transactions := [] |}.
Definition malformedOrder : AssembleL2BlockParams :=
  {| ap_Number := 1;
     ap_Transactions :=
       [[Byte.x01]; [Byte.x02]; []; [Byte.x04]; [Byte.x05]] |}.
Definition malformedSkippingOrder : AssembleL2BlockParams :=
  {| ap_Number := 7;
     ap_Transactions :=
       [[Byte.x01]; [Byte.x02]; []; [Byte.x04]; [Byte.x05]] |}.

(** A node at genesis whose miner adds no extra data. *)
Definition node : l2ConsensusAPI :=
  newL2ConsensusAPI {| head := genesis; minerExtra := []; writable := true |}.

(** The block the miner of [c] seals for [order] at time 20, and the
    descriptor AssembleL2Block makes of it. *)
Definition orderBlock (c : Chain) : Block Byte.byte :=
  seal c genesisHash 20 [Byte.x01; Byte.x02].
Definition orderDescriptor (c : Chain) : ExecutableL2Data :=
  blockToParams (H := types) (orderBlock c).

(** The same node with a vanity tag as miner extra data. *)
Definition taggedNode : l2ConsensusAPI :=
  newL2ConsensusAPI
    {| head := genesis; minerExtra := [Byte.x67; Byte.x6f]; writable := true |}.

(** The same node on a store that refuses writes. *)
Definition readOnlyNode : l2ConsensusAPI :=
  newL2ConsensusAPI {| head := genesis; minerExtra := []; writable := false |}.

End Devnet.



(** ** A stricter backend

    The deterministic backend with two changes: the miner is stopped and
    returns an error for every request, and the body validator refuses
    bodies with more than one transaction. *)

Module Strictnet.
Import Devnet.

#[export] Instance chain : Ethereum := {|
  Eth := Chain;
  StateDB := list Byte.byte;
  Receipts := nat;
  CurrentHeader := fun c => b_header (head c);
  CurrentBlock := head;
  GetSealingBlockAndState := fun c parent timestamp txs =>
    inl (ErrOther "miner stopped");
  ProcessBlock := ProcessBlock (Ethereum := Devnet.chain);
  WriteStateAndSetHead := WriteStateAndSetHead (Ethereum := Devnet.chain);
  Prepare := fun c header => header;
  VerifyHeader := VerifyHeader (Ethereum := Devnet.chain);
  ValidateBody := fun c block =>
    if decide (length (b_transactions block) ≤ 1)%nat then None
    else Some (ErrOther "too many transactions");
  IsValidTxCount := IsValidTxCount (Ethereum := Devnet.chain)
|}.

Definition node : l2ConsensusAPI :=
  newL2ConsensusAPI {| head := genesis; minerExtra := []; writable := true |}.

(** A candidate for block 1 with two transactions. *)
Definition pairCandidate : ExecutableL2Data :=
  descriptor 1 genesisHash 20 [Byte.x01; Byte.x02].

End Strictnet.

(** ** A backend whose engine pads the extra bytes

    The deterministic backend with one change: the engine's Prepare hook
    writes the miner's extra data into a header that has none, as the miner
    does when it seals. *)

Module Padnet.
Import Devnet.

Definition pad (c : Chain) (header : Header) : Header :=
  match h_Extra header with
  | [] =>
      {| h_ParentHash := h_ParentHash header;
         h_Coinbase := h_Coinbase header;
         h_Root := h_Root header;
         h_TxHash := h_TxHash header;
         h_ReceiptHash := h_ReceiptHash header;
         h_Bloom := h_Bloom header;
         h_Difficulty := h_Difficulty header;
         h_Number := h_Number header;
         h_GasLimit := h_GasLimit header;
         h_GasUsed := h_GasUsed header;
         h_Time := h_Time header;
         h_Extra := minerExtra c;
         h_BaseFee := h_BaseFee header;
         h_BLSData := h_BLSData header |}
  | _ => header
  end.

#[export] Instance chain : Ethereum := {|
  Eth := Chain;
  StateDB := list Byte.byte;
  Receipts := nat;
  CurrentHeader := fun c => b_header (head c);
  CurrentBlock := head;
  GetSealingBlockAndState :=
    GetSealingBlockAndState (Ethereum := Devnet.chain);
  ProcessBlock := ProcessBlock (Ethereum := Devnet.chain);
  WriteStateAndSetHead := WriteStateAndSetHead (Ethereum := Devnet.chain);
  Prepare := pad;
  VerifyHeader := VerifyHeader (Ethereum := Devnet.chain);
  ValidateBody := ValidateBody (Ethereum := Devnet.chain);
  IsValidTxCount := IsValidTxCount (Ethereum := Devnet.chain)
|}.

(** A node at genesis whose miner and engine use a vanity tag. *)
Definition node : l2ConsensusAPI :=
  newL2ConsensusAPI
    {| head := genesis; minerExtra := [Byte.x67; Byte.x6f]; writable := true |}.

End Padnet.

(** * Properties *)

Section Properties.
Context `{E : Ethereum}.

Ltac run :=
  unfold AssembleL2Block, ValidateL2Block, NewL2Block, VerifyBlock,
    paramsToBlock, chain_CurrentHeader, chain_CurrentBlock,
    miner_GetSealingBlockAndState, engine_Prepare, engine_VerifyHeader,
    config_IsValidTxCount, validator_ValidateBody, chain_ProcessBlock,
    chain_WriteStateAndSetHead, verified_lookup, verified_store,
    verified_reset, record, backend, mbind, M_bind, mret, M_ret in *;
  cbn [fst snd] in *.

(** What [paramsToBlock] computes: the only collaborator it reaches is the
    engine's Prepare hook, and the block depends on the backend only. *)
Lemma paramsToBlock_run params bls api :
  paramsToBlock params bls api =
  (match decodeTransactions (Transactions params) with
   | inl err => inl err
   | inr txs =>
       inr {| b_header :=
                setRoots (Prepare (eth api) (headerOfParams params bls))
                  params txs;
              b_transactions := txs |}
   end,
   logged (CallPrepare (headerOfParams params bls)) api).
Proof.
  run. destruct (decodeTransactions (Transactions params)); reflexivity.
Qed.

(** C6 -- linearity.  A descriptor whose number is not the head's number
    plus one (uint64 arithmetic, as the code computes it) is rejected by
    ValidateL2Block and by NewL2Block with the discontinuity error, whose
    message spells the actual and the expected number, and the API object
    (backend and head, cache, journal) is left as it was. *)
Theorem discontinuous_number_rejected params bls api :
  Number params <> u64 (Block_NumberU64 (CurrentBlock (eth api)) + 1) ->
  let expected := u64 (Block_NumberU64 (CurrentBlock (eth api)) + 1) in
  let err := ErrDiscontinuous (Number params) expected in
  ValidateL2Block params api = (inl err, api)
  /\ NewL2Block params bls api = (Some err, api)
  /\ Error err =
       ("cannot assemble block with discontinuous block number "
        ++ pretty (Number params) ++ ", expected number is "
        ++ pretty expected)%string.
Proof.
  intros Hne expected err. subst expected err. run.
  destruct (decide (Number params
                    <> u64 (Block_NumberU64 (CurrentBlock (eth api)) + 1)))
    as [_|Hc]; [|contradiction].
  repeat split; reflexivity.
Qed.

(** C7 -- parent binding.  A descriptor with the expected number whose
    parent hash is not the hash of the current head is rejected by
    ValidateL2Block and by NewL2Block with the parent-mismatch error, whose
    message spells the actual and the expected hash, and the API object is
    left as it was. *)
Theorem wrong_parent_rejected params bls api :
  Number params = u64 (Block_NumberU64 (CurrentBlock (eth api)) + 1) ->
  ParentHash params <> Block_Hash (CurrentBlock (eth api)) ->
  let err :=
    ErrWrongParent (ParentHash params) (Block_Hash (CurrentBlock (eth api))) in
  ValidateL2Block params api = (inl err, api)
  /\ NewL2Block params bls api = (Some err, api)
  /\ Error err =
       ("wrong parent hash: " ++ Hash_String (ParentHash params)
        ++ ", expected parent hash is "
        ++ Hash_String (Block_Hash (CurrentBlock (eth api))))%string.
Proof.
  intros Hnum Hne err. subst err. run.
  destruct (decide (Number params
                    <> u64 (Block_NumberU64 (CurrentBlock (eth api)) + 1)))
    as [Hc|_]; [contradiction|].
  destruct (decide (ParentHash params <> Block_Hash (CurrentBlock (eth api))))
    as [_|Hc]; [|contradiction].
  repeat split; reflexivity.
Qed.

(** C4 -- errors and verdicts of the validator.  Let [r] be what
    ValidateL2Block returns.  If [r] is an error, it is the discontinuity
    error, the parent-mismatch error or the error of the transaction
    decoder.  If the call gets past the preamble, materialises the block and
    misses the cache, then a failure of the engine's header verification, of
    the transaction-count policy, of the body validator or of the executor
    makes [r] the response valid=false with no error; nothing is cached
    and the backend is the same. *)
Theorem ValidateL2Block_error_or_verdict params api r api' :
  ValidateL2Block params api = (r, api') ->
  let parent := CurrentBlock (eth api) in
  let expected := u64 (Block_NumberU64 parent + 1) in
  (forall err, r = inl err ->
     (Number params <> expected
      /\ err = ErrDiscontinuous (Number params) expected)
     \/ (Number params = expected /\ ParentHash params <> Block_Hash parent
         /\ err = ErrWrongParent (ParentHash params) (Block_Hash parent))
     \/ (Number params = expected /\ ParentHash params = Block_Hash parent
         /\ decodeTransactions (Transactions params) = inl err))
  /\ (forall block api1,
        Number params = expected ->
        ParentHash params = Block_Hash parent ->
        paramsToBlock params BLSData_zero api = (inr block, api1) ->
        verified api !! Block_Hash block = None ->
        is_Some (VerifyHeader (eth api) (b_header block) false)
        \/ IsValidTxCount (eth api) (length (b_transactions block)) = false
        \/ is_Some (ValidateBody (eth api) block)
        \/ (exists err,
              ProcessBlock (eth api) block (b_header parent) = inl err) ->
        r = inr {| Success := false |}
        /\ verified api' = verified api /\ eth api' = eth api).
Proof.
  intros Hrun parent expected. subst parent expected. split.
  - intros err ->. run.
    destruct (decide (Number params <> _)) as [Hn|Hn].
    { left. injection Hrun as <- _. done. }
    apply dec_stable in Hn.
    destruct (decide (ParentHash params <> _)) as [Hp|Hp].
    { right; left. injection Hrun as <- _. done. }
    apply dec_stable in Hp. right; right.
    destruct (decodeTransactions (Transactions params)) as [e|txs].
    { injection Hrun as <- _. done. }
    cbn in Hrun.
    repeat (match type of Hrun with
            | context [match ?x with _ => _ end] => destruct x
            end; cbn in Hrun; try discriminate).
  - intros block api1 Hn Hp Hblock Hmiss Hfail. run.
    destruct (decide (Number params <> _)) as [Hc|_]; [contradiction|].
    destruct (decide (ParentHash params <> _)) as [Hc|_]; [contradiction|].
    destruct (decodeTransactions (Transactions params)) as [e|txs];
      [discriminate|].
    injection Hblock as <- <-. cbn in *. rewrite Hmiss in Hrun.
    destruct (VerifyHeader _ _ _) as [e|] eqn:Hv; cbn in Hrun.
    { injection Hrun as <- <-. done. }
    destruct (IsValidTxCount _ _) eqn:Hc; cbn in Hrun.
    2: { injection Hrun as <- <-. done. }
    destruct (ValidateBody _ _) as [e|] eqn:Hb; cbn in Hrun.
    { injection Hrun as <- <-. done. }
    destruct (ProcessBlock _ _ _) as [e|[[st rc] pt]] eqn:Hx; cbn in Hrun.
    { injection Hrun as <- <-. done. }
    destruct Hfail as [[? [=]]|[[=]|[[? [=]]|[? [=]]]]].
Qed.

(** C5 -- the committer on a cache miss.  Past the preamble, with the block
    materialised and no entry under its hash, NewL2Block runs VerifyBlock
    (the engine's header verification without seal, then the
    transaction-count policy), the verification ValidateL2Block runs at the
    same point, and returns its error where ValidateL2Block answers
    valid=false; an error of the executor and an error of the store write
    are returned as they are. *)
Theorem NewL2Block_miss_propagates params bls api block api1 :
  let parent := CurrentBlock (eth api) in
  Number params = u64 (Block_NumberU64 parent + 1) ->
  ParentHash params = Block_Hash parent ->
  paramsToBlock params bls api = (inr block, api1) ->
  verified api !! Block_Hash block = None ->
  (forall verr api2,
     VerifyBlock block api1 = (Some verr, api2) ->
     NewL2Block params bls api = (Some verr, api2)
     /\ (bls = BLSData_zero ->
         ValidateL2Block params api = (inr {| Success := false |}, api2)))
  /\ (forall err,
        VerifyHeader (eth api) (b_header block) false = Some err ->
        VerifyBlock block api1
        = (Some err, logged (CallVerifyHeader (b_header block) false) api1))
  /\ (VerifyHeader (eth api) (b_header block) false = None ->
      IsValidTxCount (eth api) (length (b_transactions block)) = false ->
      VerifyBlock block api1
      = (Some ErrInvalidTxCount,
         logged (CallIsValidTxCount (length (b_transactions block)))
           (logged (CallVerifyHeader (b_header block) false) api1)))
  /\ (forall api2 err,
        VerifyBlock block api1 = (None, api2) ->
        ProcessBlock (eth api) block (b_header parent) = inl err ->
        NewL2Block params bls api
        = (Some err, logged (CallProcessBlock block (b_header parent)) api2))
  /\ (forall api2 stateDB receipts procTime err e',
        VerifyBlock block api1 = (None, api2) ->
        ProcessBlock (eth api) block (b_header parent)
        = inr (stateDB, receipts, procTime) ->
        WriteStateAndSetHead (eth api) block receipts stateDB procTime
        = (Some err, e') ->
        fst (NewL2Block params bls api) = Some err).
Proof.
  intros parent Hn Hp Hblock Hmiss. subst parent.
  rewrite paramsToBlock_run in Hblock.
  destruct (decodeTransactions (Transactions params)) as [e|txs] eqn:Hdec;
    [discriminate|].
  injection Hblock as <- <-.
  assert (Hpre : forall (A : Type) (k1 k2 k3 : A),
    (if decide (Number params
                <> u64 (Block_NumberU64 (CurrentBlock (eth api)) + 1))
     then k1
     else if decide (ParentHash params <> Block_Hash (CurrentBlock (eth api)))
          then k2 else k3) = k3).
  { intros. destruct (decide (Number params <> _)); [contradiction|].
    destruct (decide (ParentHash params <> _)); [contradiction|]. done. }
  split; [|split; [|split; [|split]]].
  - assert (Hnew : forall verr api2,
      VerifyBlock
        {| b_header :=
             setRoots (Prepare (eth api) (headerOfParams params bls)) params
               txs;
           b_transactions := txs |}
        (logged (CallPrepare (headerOfParams params bls)) api)
      = (Some verr, api2) ->
      NewL2Block params bls api = (Some verr, api2)
      /\ (bls = BLSData_zero ->
          ValidateL2Block params api = (inr {| Success := false |}, api2))).
    2: exact Hnew.
    intros verr api2 Hv. split; [|intros ->]; run; rewrite Hpre, Hdec; cbn;
      rewrite Hmiss; cbn in *.
    all: destruct (VerifyHeader _ _ _) as [e|]; cbn in *;
      [injection Hv as <- <-; done|].
    all: destruct (IsValidTxCount _ _); cbn in *; [discriminate|].
    all: injection Hv as <- <-; done.
  - intros err Hv. run. cbn in *. rewrite Hv. done.
  - intros Hv Hc. run. cbn in *. rewrite Hv. cbn. rewrite Hc. done.
  - intros api2 err Hv Hx. run. rewrite Hpre, Hdec. cbn. rewrite Hmiss.
    cbn in *.
    destruct (VerifyHeader _ _ _) as [e|]; cbn in *; [discriminate|].
    destruct (IsValidTxCount _ _); cbn in *; [|discriminate].
    injection Hv as <-. cbn. rewrite Hx. done.
  - intros api2 stateDB receipts procTime err e' Hv Hx Hw. run.
    rewrite Hpre, Hdec. cbn. rewrite Hmiss. cbn in *.
    destruct (VerifyHeader _ _ _) as [e|]; cbn in *; [discriminate|].
    destruct (IsValidTxCount _ _); cbn in *; [|discriminate].
    injection Hv as <-. cbn. rewrite Hx. cbn. rewrite Hw. done.
Qed.

(** C8 -- the empty-block no-op.  When the miner, called by AssembleL2Block
    for the decoded transactions, returns a block whose transaction root
    is the empty root hash, AssembleL2Block returns no descriptor and no
    error; the API object only gains the journal entry of that call, so no
    cache entry is inserted. *)
Theorem AssembleL2Block_empty_block
    params start now finish api transactions block state receipts :
  let parent := CurrentHeader (eth api) in
  ap_Number params = u64 (big_Uint64 (h_Number parent) + 1) ->
  unmarshalTransactions 0 (ap_Transactions params) [] = inr transactions ->
  GetSealingBlockAndState (eth api) (hashHeader parent) now transactions
  = inr (block, state, receipts) ->
  Block_TxHash block = EmptyRootHash ->
  AssembleL2Block params start now finish api
  = (inr None,
     logged (CallGetSealingBlockAndState (hashHeader parent) now transactions)
       api)
  /\ verified
       (logged
          (CallGetSealingBlockAndState (hashHeader parent) now transactions)
          api) = verified api.
Proof.
  intros parent Hn Hdec Hseal Hempty. subst parent. split; [|reflexivity].
  run. destruct (decide (ap_Number params <> _)); [contradiction|].
  rewrite Hdec. cbn. rewrite Hseal.
  destruct (decide (Block_TxHash block = EmptyRootHash)); [|contradiction].
  reflexivity.
Qed.

(** The decoding loop stops at the first transaction that does not decode
    and reports the index of that transaction. *)
Lemma unmarshalTransactions_first_failure otxs :
  forall k acc i otx cause,
    otxs !! i = Some otx ->
    UnmarshalBinary otx = inl cause ->
    (forall j otx', (j < i)%nat -> otxs !! j = Some otx' ->
       exists tx, UnmarshalBinary otx' = inr tx) ->
    unmarshalTransactions k otxs acc = inl (ErrTxNotValid (k + i) cause).
Proof.
  induction otxs as [|o rest IH]; intros k acc i otx cause Hi Hbad Hgood.
  - destruct i; discriminate.
  - destruct i as [|i]; cbn in *.
    + injection Hi as ->. rewrite Hbad. f_equal. f_equal. lia.
    + destruct (Hgood 0%nat o) as [tx Htx]; [lia|reflexivity|].
      rewrite Htx.
      rewrite (IH (S k) (acc ++ [tx]) i otx cause Hi Hbad).
      * f_equal. f_equal. lia.
      * intros j otx' Hj Hl. apply (Hgood (S j) otx'); [lia|exact Hl].
Qed.

(** C9 -- malformed transaction.  When the requested number is the head's
    number plus one and the transaction at index [i] is the first of the
    list that does not decode, AssembleL2Block returns the error made from
    [i] and the decoder's error, whose message starts with the index, and
    leaves the API object as it was. *)
Theorem AssembleL2Block_malformed_transaction
    params start now finish api i otx cause :
  ap_Number params
  = u64 (big_Uint64 (h_Number (CurrentHeader (eth api))) + 1) ->
  ap_Transactions params !! i = Some otx ->
  UnmarshalBinary otx = inl cause ->
  (forall j otx', (j < i)%nat -> ap_Transactions params !! j = Some otx' ->
     exists tx, UnmarshalBinary otx' = inr tx) ->
  AssembleL2Block params start now finish api
  = (inl (ErrTxNotValid i cause), api)
  /\ Error (ErrTxNotValid i cause)
     = ("transaction " ++ pretty (Z.of_nat i) ++ " is not valid: "
        ++ Error cause)%string.
Proof.
  intros Hn Hi Hbad Hgood. split; [|reflexivity].
  run. destruct (decide (ap_Number params <> _)); [contradiction|].
  rewrite (unmarshalTransactions_first_failure _ 0 [] i otx cause Hi Hbad Hgood).
  reflexivity.
Qed.

(** What a successful AssembleL2Block has done: the miner sealed a block
    with transactions, the result went into the cache under the hash of that
    block, and the descriptor returned is [blockToParams] of it. *)
Lemma AssembleL2Block_Some_inv params start now finish api D api1 :
  AssembleL2Block params start now finish api = (inr (Some D), api1) ->
  exists transactions block state receipts,
    ap_Number params
    = u64 (big_Uint64 (h_Number (CurrentHeader (eth api))) + 1)
    /\ unmarshalTransactions 0 (ap_Transactions params) [] = inr transactions
    /\ GetSealingBlockAndState (eth api) (hashHeader (CurrentHeader (eth api)))
         now transactions = inr (block, state, receipts)
    /\ Block_TxHash block <> EmptyRootHash
    /\ D = blockToParams block
    /\ api1 =
       {| eth := eth api;
          verified :=
            <[Block_Hash block :=
                {| er_block := block; er_state := state;
                   er_receipts := receipts; er_procTime := finish - start |}]>
              (verified api);
          journal := journal api ++
            [CallGetSealingBlockAndState (hashHeader (CurrentHeader (eth api)))
               now transactions] |}.
Proof.
  intros Hrun. run.
  destruct (decide (ap_Number params <> _)) as [|Hn]; [discriminate|].
  apply dec_stable in Hn.
  destruct (unmarshalTransactions 0 (ap_Transactions params) [])
    as [e|transactions] eqn:Hdec; [discriminate|].
  cbn in Hrun.
  destruct (GetSealingBlockAndState _ _ _ _)
    as [e|[[block state] receipts]] eqn:Hseal; [discriminate|].
  destruct (decide (Block_TxHash block = EmptyRootHash)) as [|Hne];
    [discriminate|].
  cbn in Hrun. injection Hrun as <- <-.
  exists transactions, block, state, receipts. repeat split; done.
Qed.

(** The converse: when the number is next, the transactions decode and the
    miner seals a block with transactions, AssembleL2Block succeeds. *)
Lemma AssembleL2Block_Some params start now finish api transactions block
    state receipts :
  ap_Number params
  = u64 (big_Uint64 (h_Number (CurrentHeader (eth api))) + 1) ->
  unmarshalTransactions 0 (ap_Transactions params) [] = inr transactions ->
  GetSealingBlockAndState (eth api) (hashHeader (CurrentHeader (eth api)))
    now transactions = inr (block, state, receipts) ->
  Block_TxHash block <> EmptyRootHash ->
  AssembleL2Block params start now finish api
  = (inr (Some (blockToParams block)),
     {| eth := eth api;
        verified :=
          <[Block_Hash block :=
              {| er_block := block; er_state := state;
                 er_receipts := receipts; er_procTime := finish - start |}]>
            (verified api);
        journal := journal api ++
          [CallGetSealingBlockAndState (hashHeader (CurrentHeader (eth api)))
             now transactions] |}).
Proof.
  intros Hn Hdec Hseal Hne. run.
  destruct (decide (ap_Number params <> _)); [contradiction|].
  rewrite Hdec. cbn. rewrite Hseal.
  destruct (decide (Block_TxHash block = EmptyRootHash)); [contradiction|].
  reflexivity.
Qed.


(** C3 -- validation of a cached block.  Let [r] be what ValidateL2Block
    returns.  If the descriptor passes the preamble and the block it
    materialises to has an entry in the cache, [r] is valid=true and the API
    object has only gained the journal entry of the engine's Prepare hook:
    no header verification, no transaction-count check, no body validation,
    no execution, no change of the cache or of the head.  If [r] is
    valid=true, by a hit or after an execution, validating the same
    descriptor again answers valid=true and again reaches Prepare only. *)
Theorem ValidateL2Block_cache_hit params api r api' :
  ValidateL2Block params api = (r, api') ->
  let parent := CurrentBlock (eth api) in
  let prepare := CallPrepare (headerOfParams params BLSData_zero) in
  (forall block api1,
     Number params = u64 (Block_NumberU64 parent + 1) ->
     ParentHash params = Block_Hash parent ->
     paramsToBlock params BLSData_zero api = (inr block, api1) ->
     is_Some (verified api !! Block_Hash block) ->
     r = inr {| Success := true |} /\ api' = logged prepare api)
  /\ (r = inr {| Success := true |} ->
      ValidateL2Block params api'
      = (inr {| Success := true |}, logged prepare api')).
Proof.
  intros Hrun parent prepare. subst parent prepare. split.
  - intros block api1 Hn Hp Hblock [res Hhit].
    rewrite paramsToBlock_run in Hblock. run.
    destruct (decide (Number params <> _)); [contradiction|].
    destruct (decide (ParentHash params <> _)); [contradiction|].
    destruct (decodeTransactions (Transactions params)) as [e|txs];
      [discriminate|].
    injection Hblock as <- <-. cbn in *. rewrite Hhit in Hrun.
    injection Hrun as <- <-. done.
  - intros ->. run.
    destruct (decide (Number params <> _)) as [|Hn]; [discriminate|].
    destruct (decide (ParentHash params <> _)) as [|Hp]; [discriminate|].
    destruct (decodeTransactions (Transactions params)) as [e|txs];
      [discriminate|].
    cbn in Hrun.
    destruct (verified api !! _) as [res|] eqn:Hhit; cbn in Hrun.
    { injection Hrun as <-. cbn.
      destruct (decide (Number params <> _)); [contradiction|].
      destruct (decide (ParentHash params <> _)); [contradiction|].
      cbn. rewrite Hhit. reflexivity. }
    destruct (VerifyHeader _ _ _); cbn in Hrun; [discriminate|].
    destruct (IsValidTxCount _ _); cbn in Hrun; [|discriminate].
    destruct (ValidateBody _ _); cbn in Hrun; [discriminate|].
    destruct (ProcessBlock _ _ _) as [e|[[st rc] pt]]; cbn in Hrun;
      [discriminate|].
    injection Hrun as <-. cbn.
    destruct (decide (Number params <> _)); [contradiction|].
    destruct (decide (ParentHash params <> _)); [contradiction|].
    cbn. rewrite lookup_insert_eq. reflexivity.
Qed.

(** The hit path of NewL2Block: the store is the only collaborator reached
    after Prepare, it is handed the cached receipts, state and duration, and
    the cache is emptied when the write succeeds. *)
Lemma NewL2Block_hit params bls api block api1 bas :
  Number params = u64 (Block_NumberU64 (CurrentBlock (eth api)) + 1) ->
  ParentHash params = Block_Hash (CurrentBlock (eth api)) ->
  paramsToBlock params bls api = (inr block, api1) ->
  verified api !! Block_Hash block = Some bas ->
  NewL2Block params bls api =
  let w := WriteStateAndSetHead (eth api) block (er_receipts bas)
             (er_state bas) (er_procTime bas) in
  (fst w,
   {| eth := snd w;
      verified := match fst w with None => ∅ | Some _ => verified api end;
      journal := journal api ++
        [CallPrepare (headerOfParams params bls);
         CallWriteStateAndSetHead block (er_receipts bas) (er_state bas)
           (er_procTime bas)] |}).
Proof.
  intros Hn Hp Hblock Hhit. rewrite paramsToBlock_run in Hblock. run.
  destruct (decide (Number params <> _)); [contradiction|].
  destruct (decide (ParentHash params <> _)); [contradiction|].
  destruct (decodeTransactions (Transactions params)) as [e|txs];
    [discriminate|].
  injection Hblock as <- _. cbn in *. rewrite Hhit. cbn.
  destruct (WriteStateAndSetHead _ _ _ _ _) as [[e|] e']; cbn;
    rewrite <- app_assoc; reflexivity.
Qed.

(** The miss path of NewL2Block when everything succeeds: the head is
    written, the cache is what it was. *)
Lemma NewL2Block_miss_success params bls api block api1 stateDB receipts
    procTime e' :
  Number params = u64 (Block_NumberU64 (CurrentBlock (eth api)) + 1) ->
  ParentHash params = Block_Hash (CurrentBlock (eth api)) ->
  paramsToBlock params bls api = (inr block, api1) ->
  verified api !! Block_Hash block = None ->
  VerifyHeader (eth api) (b_header block) false = None ->
  IsValidTxCount (eth api) (length (b_transactions block)) = true ->
  ProcessBlock (eth api) block (b_header (CurrentBlock (eth api)))
  = inr (stateDB, receipts, procTime) ->
  WriteStateAndSetHead (eth api) block receipts stateDB procTime = (None, e') ->
  exists api2,
    NewL2Block params bls api = (None, api2)
    /\ eth api2 = e' /\ verified api2 = verified api.
Proof.
  intros Hn Hp Hblock Hmiss Hv Hc Hx Hw. rewrite paramsToBlock_run in Hblock.
  run.
  destruct (decide (Number params <> _)); [contradiction|].
  destruct (decide (ParentHash params <> _)); [contradiction|].
  destruct (decodeTransactions (Transactions params)) as [e|txs];
    [discriminate|].
  injection Hblock as <- _. cbn in *. rewrite Hmiss. cbn.
  rewrite Hv. cbn. rewrite Hc. cbn. rewrite Hx. cbn. rewrite Hw.
  eexists. split; [reflexivity|]. done.
Qed.

(** The descriptor of a block rebuilds to the block: what it takes of the
    block, of the codecs and of the engine. *)
Lemma blockToParams_rematerialises block bls api :
  h_Extra (b_header block) = [] ->
  h_BLSData (b_header block) = bls ->
  0 <= h_Number (b_header block) < 2 ^ 63 ->
  h_TxHash (b_header block) = DeriveSha (b_transactions block) ->
  decodeTransactions (encodeTransactions (b_transactions block))
  = inr (b_transactions block) ->
  BytesToBloom (Bloom_Bytes (h_Bloom (b_header block)))
  = h_Bloom (b_header block) ->
  Prepare (eth api) (headerOfParams (blockToParams block) bls)
  = withDifficulty (h_Difficulty (b_header block))
      (headerOfParams (blockToParams block) bls) ->
  paramsToBlock (blockToParams block) bls api
  = (inr block,
     logged (CallPrepare (headerOfParams (blockToParams block) bls)) api).
Proof.
  intros Hextra Hbls Hnum Htx Hcodec Hbloom Hprep.
  assert (Hback : int64_of_u64 (big_Uint64 (h_Number (b_header block)))
                 = h_Number (b_header block)).
  { unfold big_Uint64, int64_of_u64, two64.
    rewrite Z.abs_eq by lia. rewrite Z.mod_small by lia.
    destruct (Z.ltb_spec (h_Number (b_header block)) (2 ^ 63)); lia. }
  rewrite paramsToBlock_run, Hprep.
  destruct block as [h txs]. destruct h.
  unfold setRoots, withDifficulty, headerOfParams, blockToParams,
    Block_NumberU64 in *.
  cbn -[int64_of_u64 big_Uint64] in *.
  rewrite Hcodec, Hback, Hbloom. subst. reflexivity.
Qed.

(** C2 -- assemble, then commit.  Let AssembleL2Block succeed with the
    descriptor [D] for the block the miner sealed, on a backend whose two
    head accessors agree.  Let the miner have built the requested number on
    the current head, with a header that has no extra bytes, the
    aggregate-signature data later supplied, a number below 2^63 and the
    transaction root of the body; let the transaction codec and the bloom
    conversion round-trip on the block, and the engine's Prepare hook fill
    in only the difficulty, with the value the block has.  Then NewL2Block
    with [D] takes the hit path: after Prepare the store write is the only
    collaborator call, made for the sealed block with the receipts, state
    and duration AssembleL2Block cached; the executor and the engine's
    verification are not reached.  NewL2Block returns what the store
    returns; when that is no error the cache is empty and the backend is
    the one the store produced for this block. *)
Theorem assemble_then_commit
    params start now finish api D api1 bls txs block state receipts :
  let h := b_header block in
  unmarshalTransactions 0 (ap_Transactions params) [] = inr txs ->
  GetSealingBlockAndState (eth api) (hashHeader (CurrentHeader (eth api)))
    now txs = inr (block, state, receipts) ->
  AssembleL2Block params start now finish api = (inr (Some D), api1) ->
  CurrentHeader (eth api) = b_header (CurrentBlock (eth api)) ->
  h_ParentHash h = hashHeader (CurrentHeader (eth api)) ->
  Block_NumberU64 block = ap_Number params ->
  h_Extra h = [] ->
  h_BLSData h = bls ->
  0 <= h_Number h < 2 ^ 63 ->
  h_TxHash h = DeriveSha (b_transactions block) ->
  decodeTransactions (encodeTransactions (b_transactions block))
  = inr (b_transactions block) ->
  BytesToBloom (Bloom_Bytes (h_Bloom h)) = h_Bloom h ->
  Prepare (eth api) (headerOfParams D bls)
  = withDifficulty (h_Difficulty h) (headerOfParams D bls) ->
  let w :=
    WriteStateAndSetHead (eth api) block receipts state (finish - start) in
  NewL2Block D bls api1
  = (fst w,
     {| eth := snd w;
        verified := match fst w with None => ∅ | Some _ => verified api1 end;
        journal := journal api1 ++
          [CallPrepare (headerOfParams D bls);
           CallWriteStateAndSetHead block receipts state (finish - start)] |})
  /\ (fst w = None ->
      exists api3,
        NewL2Block D bls api1 = (None, api3)
        /\ verified api3 = ∅ /\ eth api3 = snd w).
Proof.
  intros h Hdec Hseal Hrun Hhead Hparent Hnumber Hextra Hbls Hrange Htx Hcodec
    Hbloom Hprep w. subst h.
  destruct (AssembleL2Block_Some_inv _ _ _ _ _ _ _ Hrun)
    as (txs0 & block0 & state0 & receipts0 & Hnext & Hdec0 & Hseal0 & _ & HD
        & ->).
  rewrite Hdec in Hdec0. injection Hdec0 as <-.
  rewrite Hseal in Hseal0. injection Hseal0 as <- <- <-.
  subst D.
  set (api1 := {| eth := eth api; verified := _; journal := _ |}) in *.
  assert (Hremat :
    paramsToBlock (blockToParams block) bls api1
    = (inr block,
       logged (CallPrepare (headerOfParams (blockToParams block) bls)) api1)).
  { apply blockToParams_rematerialises; assumption. }
  assert (Hhit : verified api1 !! Block_Hash block
                 = Some {| er_block := block; er_state := state;
                           er_receipts := receipts;
                           er_procTime := finish - start |}).
  { subst api1. cbn. apply lookup_insert_eq. }
  assert (Hn : Number (blockToParams block)
               = u64 (Block_NumberU64 (CurrentBlock (eth api1)) + 1)).
  { cbn. rewrite Hnumber, Hnext, Hhead. reflexivity. }
  assert (Hp : ParentHash (blockToParams block)
               = Block_Hash (CurrentBlock (eth api1))).
  { cbn. rewrite Hparent, Hhead. reflexivity. }
  pose proof (NewL2Block_hit (blockToParams block) bls api1 block _ _ Hn Hp
                Hremat Hhit) as Hnew.
  cbn in Hnew. fold w in Hnew. split; [exact Hnew|].
  intros Hok. rewrite Hnew, Hok. eexists. split; [reflexivity|]. done.
Qed.

End Properties.

(** * Runs on the deterministic backend *)

Module DevnetRuns.
Import Devnet.




(** Witness of C6: a candidate numbered 7 on a chain at genesis. *)
Lemma discontinuous_number_rejected_witness :
  ValidateL2Block skippingCandidate node = (inl (ErrDiscontinuous 7 1), node)
  /\ NewL2Block skippingCandidate [] node = (Some (ErrDiscontinuous 7 1), node)
  /\ Error (ErrDiscontinuous 7 1) =
     "cannot assemble block with discontinuous block number 7, expected number is 1"%string.
Proof.
  exact (discontinuous_number_rejected skippingCandidate [] node
           ltac:(vm_compute; discriminate)).
Defined.

(** Witness of C7: a candidate for block 1 on a parent the chain does not
    have. *)
Lemma wrong_parent_rejected_witness :
  ValidateL2Block orphanCandidate node
  = (inl (ErrWrongParent 255%N genesisHash), node)
  /\ NewL2Block orphanCandidate [] node
     = (Some (ErrWrongParent 255%N genesisHash), node).
Proof.
  destruct (wrong_parent_rejected orphanCandidate [] node
              ltac:(vm_compute; reflexivity) ltac:(vm_compute; discriminate))
    as (Hv & Hn & _).
  split; [exact Hv|exact Hn].
Defined.

(** Witness of C4: the stale candidate gets past the preamble, misses the
    cache and fails the engine's header verification; the validator
    answers valid=false and returns no error. *)
Lemma ValidateL2Block_error_or_verdict_witness :
  fst (ValidateL2Block staleCandidate node) = inr {| Success := false |}
  /\ verified (snd (ValidateL2Block staleCandidate node)) = verified node.
Proof.
  destruct (ValidateL2Block_error_or_verdict staleCandidate node _ _
              (surjective_pairing _)) as [_ Hverdict].
  edestruct Hverdict as (Hr & Hcache & _).
  - vm_compute. reflexivity.
  - vm_compute. reflexivity.
  - reflexivity.
  - vm_compute. reflexivity.
  - left. vm_compute. eexists. reflexivity.
  - split; [exact Hr|exact Hcache].
Defined.

(** Witness of C5: committing the stale candidate misses the cache and
    returns the engine's error, where the validator answers valid=false. *)
Lemma NewL2Block_miss_propagates_witness :
  fst (NewL2Block staleCandidate [] node)
  = Some (ErrOther "invalid timestamp")
  /\ fst (ValidateL2Block staleCandidate node) = inr {| Success := false |}.
Proof.
  edestruct (NewL2Block_miss_propagates staleCandidate [] node)
    as (Hverify & _).
  - vm_compute. reflexivity.
  - vm_compute. reflexivity.
  - reflexivity.
  - vm_compute. reflexivity.
  - edestruct Hverify as (Hnew & Hvalidate).
    + reflexivity.
    + rewrite Hnew, (Hvalidate eq_refl). split; reflexivity.
Defined.

(** Witness of C8: assembling with no transactions. *)
Lemma AssembleL2Block_empty_block_witness :
  fst (AssembleL2Block emptyOrder 10 20 30 node) = inr None
  /\ verified (snd (AssembleL2Block emptyOrder 10 20 30 node)) = ∅.
Proof.
  edestruct (AssembleL2Block_empty_block emptyOrder 10 20 30 node)
    as (Hrun & Hcache).
  - vm_compute. reflexivity.
  - reflexivity.
  - reflexivity.
  - vm_compute. reflexivity.
  - rewrite Hrun. split; [reflexivity|exact Hcache].
Defined.

(** Witness of C9: of five transactions the one at index 2 is the first
    that does not decode. *)
Lemma AssembleL2Block_malformed_transaction_witness :
  AssembleL2Block malformedOrder 10 20 30 node
  = (inl (ErrTxNotValid 2 (ErrOther "transaction type not supported")), node)
  /\ Error (ErrTxNotValid 2 (ErrOther "transaction type not supported"))
     = "transaction 2 is not valid: transaction type not supported"%string.
Proof.
  apply (AssembleL2Block_malformed_transaction malformedOrder 10 20 30 node
           2%nat []).
  - vm_compute. reflexivity.
  - reflexivity.
  - reflexivity.
  - intros [|[|j]] otx' Hj Hotx; [| |lia].
    + injection Hotx as <-. eexists. reflexivity.
    + injection Hotx as <-. eexists. reflexivity.
Defined.

(** Counterexample to C9 as stated: the same five transactions, requested
    for number 7 on a chain at genesis.  The transaction at index 2 is the
    first that does not decode, and the error is the discontinuity error,
    which names no index. *)
Lemma AssembleL2Block_malformed_transaction_counterexample :
  ap_Transactions malformedSkippingOrder !! 2%nat = Some []
  /\ UnmarshalBinary [] = inl (ErrOther "transaction type not supported")
  /\ (forall j otx', (j < 2)%nat ->
        ap_Transactions malformedSkippingOrder !! j = Some otx' ->
        exists tx, UnmarshalBinary otx' = inr tx)
  /\ AssembleL2Block malformedSkippingOrder 10 20 30 node
     = (inl (ErrDiscontinuous 7 1), node)
  /\ forall cause,
       fst (AssembleL2Block malformedSkippingOrder 10 20 30 node)
       <> inl (ErrTxNotValid 2 cause).
Proof.
  split; [reflexivity|]. split; [reflexivity|]. split; [|split].
  - intros [|[|j]] otx' Hj Hotx; [| |lia].
    + injection Hotx as <-. eexists. reflexivity.
    + injection Hotx as <-. eexists. reflexivity.
  - vm_compute. reflexivity.
  - intros cause. vm_compute. discriminate.
Qed.

(** The node after candidate A has been validated, and after candidate B
    has then been committed. *)
Lemma validated_A : fst (ValidateL2Block candidateA node) = inr {| Success := true |}.
Proof. vm_compute. reflexivity. Qed.

Lemma committed_B :
  fst (NewL2Block candidateB [] (snd (ValidateL2Block candidateA node))) = None.
Proof. vm_compute. reflexivity. Qed.

(** Witness of C3: candidate A is executed by the first validation and
    answered from the cache by the second. *)
Lemma ValidateL2Block_cache_hit_witness :
  let api1 := snd (ValidateL2Block candidateA node) in
  ValidateL2Block candidateA api1
  = (inr {| Success := true |},
     logged (CallPrepare (headerOfParams candidateA BLSData_zero)) api1).
Proof.
  destruct (ValidateL2Block_cache_hit candidateA node _ _
              (surjective_pairing _)) as [_ Hagain].
  apply Hagain. vm_compute. reflexivity.
Defined.

(** Counterexample to C3 as stated: candidate A is validated, which caches
    its block; candidate B, another block 1, is committed, which moves the
    head to number 1.  Candidate A still materialises to a block whose hash
    has a cache entry, and validating it is answered with the discontinuity
    error, not with valid=true. *)
Lemma ValidateL2Block_cache_hit_counterexample :
  let api1 := snd (ValidateL2Block candidateA node) in
  let api2 := snd (NewL2Block candidateB [] api1) in
  fst (ValidateL2Block candidateA node) = inr {| Success := true |}
  /\ fst (NewL2Block candidateB [] api1) = None
  /\ (exists block,
        fst (paramsToBlock candidateA BLSData_zero api2) = inr block
        /\ is_Some (verified api2 !! Block_Hash block))
  /\ fst (ValidateL2Block candidateA api2) = inl (ErrDiscontinuous 1 2)
  /\ fst (ValidateL2Block candidateA api2) <> inr {| Success := true |}.
Proof.
  intros api1 api2. subst api1 api2.
  split; [exact validated_A|]. split; [exact committed_B|]. split; [|split].
  - eexists. split; [reflexivity|]. vm_compute. eexists. reflexivity.
  - vm_compute. reflexivity.
  - vm_compute. discriminate.
Qed.

(** C1 -- the cache after a commit.  On the node that has validated
    candidate A, committing candidate B misses the cache, re-executes the
    block, writes it and returns no error: the head is block 1, the call is
    a successful commit, and the cache is the one from before the call,
    with the entry of candidate A still in it.  The hit path empties the
    cache after the same store write ([NewL2Block_hit]); the miss path
    returns the store's result without touching [verified]. *)
Theorem NewL2Block_miss_commit_keeps_cache :
  let api1 := snd (ValidateL2Block candidateA node) in
  let api2 := snd (NewL2Block candidateB [] api1) in
  (exists block api',
     paramsToBlock candidateB [] api1 = (inr block, api')
     /\ verified api1 !! Block_Hash block = None)
  /\ fst (NewL2Block candidateB [] api1) = None
  /\ h_Number (b_header (CurrentBlock (eth api2))) = 1
  /\ verified api2 = verified api1
  /\ verified api2 <> ∅.
Proof.
  intros api1 api2.
  assert (Hkeep : verified api2 = verified api1).
  { subst api2.
    edestruct (NewL2Block_miss_success candidateB [] api1)
      as (api2 & Hrun & _ & Hcache).
    - vm_compute. reflexivity.
    - vm_compute. reflexivity.
    - reflexivity.
    - vm_compute. reflexivity.
    - vm_compute. reflexivity.
    - vm_compute. reflexivity.
    - vm_compute. reflexivity.
    - vm_compute. reflexivity.
    - rewrite Hrun. exact Hcache. }
  split; [|split; [|split; [|split]]].
  - eexists _, _. split; [reflexivity|]. vm_compute. reflexivity.
  - exact committed_B.
  - vm_compute. reflexivity.
  - exact Hkeep.
  - rewrite Hkeep. intros Hempty.
    assert (Hentry : is_Some
      (verified api1
         !! headerCode
              (setRoots (headerOfParams candidateA BLSData_zero) candidateA
                 [Byte.x01]))).
    { vm_compute. eexists. reflexivity. }
    rewrite Hempty, lookup_empty in Hentry. destruct Hentry as [? [=]].
Qed.

(** Witness of C2: on the node whose miner adds no extra data the
    descriptor of the assembled block is committed from the cache. *)
Lemma assemble_then_commit_witness :
  let r := AssembleL2Block order 10 20 30 node in
  exists D api3,
    fst r = inr (Some D)
    /\ NewL2Block D [] (snd r) = (None, api3)
    /\ verified api3 = ∅
    /\ h_Number (b_header (CurrentBlock (eth api3))) = 1.
Proof.
  intros r. subst r.
  pose proof (AssembleL2Block_Some order 10 20 30 node [Byte.x01; Byte.x02]
                (orderBlock (eth node)) [Byte.x01; Byte.x02] 2%nat
                ltac:(vm_compute; reflexivity) eq_refl eq_refl
                ltac:(vm_compute; discriminate)) as Hr.
  edestruct assemble_then_commit
    with (params := order) (start := 10) (now := 20) (finish := 30)
         (api := node) (bls := [] : BLSData) (txs := [Byte.x01; Byte.x02])
         (block := orderBlock (eth node))
    as (_ & Hok).
  - reflexivity.
  - reflexivity.
  - exact Hr.
  - reflexivity.
  - reflexivity.
  - vm_compute. reflexivity.
  - reflexivity.
  - reflexivity.
  - vm_compute. split; [discriminate|reflexivity].
  - reflexivity.
  - reflexivity.
  - reflexivity.
  - reflexivity.
  - destruct Hok as (api3 & Hrun & Hcache & Heth); [reflexivity|].
    exists (orderDescriptor (eth node)), api3. rewrite Hr.
    split; [reflexivity|]. split; [exact Hrun|].
    split; [exact Hcache|]. rewrite Heth. reflexivity.
Defined.

(** Counterexample to C2 as stated.  On the node whose miner tags its
    blocks, AssembleL2Block succeeds and committing the descriptor it
    returned, with the aggregate-signature data of the assembled block,
    reaches the executor.  On the node whose store refuses writes the
    commit does not reach the executor and returns the store's error; the
    head stays at genesis. *)
Lemma assemble_then_commit_counterexample :
  (let r := AssembleL2Block order 10 20 30 taggedNode in
   exists D,
     fst r = inr (Some D)
     /\ h_BLSData (b_header (orderBlock (eth taggedNode))) = []
     /\ fst (NewL2Block D [] (snd r)) = None
     /\ reachedExecutor (snd (NewL2Block D [] (snd r))) = true)
  /\ (let r := AssembleL2Block order 10 20 30 readOnlyNode in
      exists D,
        fst r = inr (Some D)
        /\ reachedExecutor (snd (NewL2Block D [] (snd r))) = false
        /\ fst (NewL2Block D [] (snd r))
           = Some (ErrOther "read-only file system")
        /\ CurrentBlock (eth (snd (NewL2Block D [] (snd r)))) = genesis).
Proof.
  split.
  - exists (orderDescriptor (eth taggedNode)).
    split; [vm_compute; reflexivity|]. split; [reflexivity|].
    split; vm_compute; reflexivity.
  - exists (orderDescriptor (eth readOnlyNode)).
    split; [vm_compute; reflexivity|].
    split; [vm_compute; reflexivity|]. split; vm_compute; reflexivity.
Qed.



End DevnetRuns.

(** * Further properties of the three methods *)

Section MoreProperties.
Context `{E : Ethereum}.

Ltac run :=
  unfold AssembleL2Block, ValidateL2Block, NewL2Block, VerifyBlock,
    paramsToBlock, chain_CurrentHeader, chain_CurrentBlock,
    miner_GetSealingBlockAndState, engine_Prepare, engine_VerifyHeader,
    config_IsValidTxCount, validator_ValidateBody, chain_ProcessBlock,
    chain_WriteStateAndSetHead, verified_lookup, verified_store,
    verified_reset, record, backend, mbind, M_bind, mret, M_ret in *;
  cbn [fst snd] in *.

Ltac run_in Hrun :=
  unfold AssembleL2Block, ValidateL2Block, NewL2Block, VerifyBlock,
    chain_CurrentHeader, chain_CurrentBlock,
    miner_GetSealingBlockAndState, engine_VerifyHeader,
    config_IsValidTxCount, validator_ValidateBody, chain_ProcessBlock,
    chain_WriteStateAndSetHead, verified_lookup, verified_store,
    verified_reset, record, backend, mbind, M_bind, mret, M_ret in Hrun;
  cbn [fst snd] in Hrun;
  rewrite ?paramsToBlock_run in Hrun;
  cbn [fst snd] in Hrun.

(** Step through a run recorded in [Hrun]: split on every test the code
    makes, keeping the outcome of each as an equation. *)
Ltac steps Hrun :=
  repeat (match type of Hrun with
          | context [paramsToBlock ?p ?b ?a] =>
              rewrite (paramsToBlock_run p b a) in Hrun
          | context [match ?x with _ => _ end] =>
              lazymatch x with
              | context [match _ with _ => _ end] => fail
              | _ => let Hx := fresh "Hstep" in destruct x eqn:Hx
              end
          end; cbn [fst snd eth verified journal logged] in Hrun).

(** X2 -- the assembler's linearity check.  A request whose number is not
    the current header's number plus one (uint64 arithmetic) is answered
    with the discontinuity error carrying the requested and the expected
    number, before any transaction is decoded or the miner is called; the
    API object is left as it was. *)
Theorem AssembleL2Block_discontinuous params start now finish api :
  ap_Number params
  <> u64 (big_Uint64 (h_Number (CurrentHeader (eth api))) + 1) ->
  AssembleL2Block params start now finish api
  = (inl (ErrDiscontinuous (ap_Number params)
            (u64 (big_Uint64 (h_Number (CurrentHeader (eth api))) + 1))),
     api).
Proof.
  intros Hne. run.
  destruct (decide (ap_Number params <> _)); [reflexivity|contradiction].
Qed.

(** X5 -- what the assembler touches.  Whatever AssembleL2Block returns, the
    backend is the same, the only collaborator it can have reached is the
    miner (once, for the hash of the current header and the timestamp
    given), and the cache is unchanged unless a descriptor is returned, in
    which case exactly one entry was stored, under the hash of a block with
    transactions of which the descriptor is [blockToParams]. *)
Theorem AssembleL2Block_frame params start now finish api r api' :
  AssembleL2Block params start now finish api = (r, api') ->
  eth api' = eth api
  /\ (journal api' = journal api
      \/ exists transactions,
           journal api' = journal api ++
             [CallGetSealingBlockAndState
                (hashHeader (CurrentHeader (eth api))) now transactions])
  /\ match r with
     | inr (Some D) =>
         exists block state receipts,
           D = blockToParams block
           /\ Block_TxHash block <> EmptyRootHash
           /\ verified api' =
              <[Block_Hash block :=
                  {| er_block := block; er_state := state;
                     er_receipts := receipts;
                     er_procTime := finish - start |}]> (verified api)
     | _ => verified api' = verified api
     end.
Proof.
  intros Hrun. run. steps Hrun; injection Hrun as <- <-; cbn.
  all: split; [reflexivity|].
  all: split; [first [left; reflexivity | right; eexists; reflexivity]|].
  all: try reflexivity.
  eexists _, _, _. done.
Qed.


(** X4 -- a failing miner.  When the number is next and the transactions
    decode, an error of GetSealingBlockAndState is returned as it is; the
    API object only gains the journal entry of the call, so nothing is
    cached. *)
Theorem AssembleL2Block_executor_failure
    params start now finish api transactions err :
  let parent := CurrentHeader (eth api) in
  ap_Number params = u64 (big_Uint64 (h_Number parent) + 1) ->
  unmarshalTransactions 0 (ap_Transactions params) [] = inr transactions ->
  GetSealingBlockAndState (eth api) (hashHeader parent) now transactions
  = inl err ->
  AssembleL2Block params start now finish api
  = (inl err,
     logged (CallGetSealingBlockAndState (hashHeader parent) now transactions)
       api).
Proof.
  intros parent Hn Hdec Hseal. subst parent. run.
  destruct (decide (ap_Number params <> _)); [contradiction|].
  rewrite Hdec. cbn. rewrite Hseal. reflexivity.
Qed.

(** The decoding loop with an accumulator: it succeeds exactly when every
    remaining transaction decodes, and appends the decoded ones in order. *)
Lemma unmarshalTransactions_acc otxs :
  forall k acc txs,
    unmarshalTransactions k otxs acc = inr txs <->
    exists rest,
      txs = acc ++ rest
      /\ Forall2 (fun otx tx => UnmarshalBinary otx = inr tx) otxs rest.
Proof.
  induction otxs as [|otx otxs IH]; intros k acc txs; cbn.
  - split.
    + intros [= <-]. exists []. rewrite app_nil_r. split; [done|constructor].
    + intros (rest & -> & Hall). inversion Hall. by rewrite app_nil_r.
  - destruct (UnmarshalBinary otx) as [e|tx] eqn:Hotx.
    + split; [discriminate|].
      intros (rest & _ & Hall). inversion Hall; congruence.
    + rewrite IH. split.
      * intros (rest & -> & Hall). exists (tx :: rest).
        rewrite <- app_assoc. split; [done|]. by constructor.
      * intros (rest & -> & Hall). inversion Hall as [|? tx' ? rest' Htx Hrest];
          subst. assert (tx' = tx) as -> by congruence.
        exists rest'. rewrite <- app_assoc. done.
Qed.

(** X3 -- the decoding loop of the assembler.  It returns a list exactly
    when every encoded transaction decodes, and the list then holds the
    decoded transactions position by position: none is dropped, added or
    reordered. *)
Theorem unmarshalTransactions_all_or_nothing otxs txs :
  unmarshalTransactions 0 otxs [] = inr txs <->
  Forall2 (fun otx tx => UnmarshalBinary otx = inr tx) otxs txs.
Proof.
  rewrite unmarshalTransactions_acc. split.
  - intros (rest & -> & Hall). exact Hall.
  - intros Hall. exists txs. done.
Qed.

(** X14 -- the block number through materialisation.  paramsToBlock turns
    the uint64 number of the descriptor into an int64 before making the
    header's big integer.  When the engine's Prepare hook keeps the number,
    the materialised block's NumberU64 is the descriptor's number exactly
    for numbers up to 2^63; above, it is another number. *)
Theorem materialised_number params bls api block api1 :
  paramsToBlock params bls api = (inr block, api1) ->
  h_Number (Prepare (eth api) (headerOfParams params bls))
  = h_Number (headerOfParams params bls) ->
  0 <= Number params < two64 ->
  (Block_NumberU64 block = Number params <-> Number params <= 2 ^ 63).
Proof.
  intros Hblock Hprep Hrange. rewrite paramsToBlock_run in Hblock.
  destruct (decodeTransactions _) as [e|txs]; [discriminate|].
  injection Hblock as <- _. unfold Block_NumberU64. cbn. rewrite Hprep. cbn.
  unfold big_Uint64, int64_of_u64, two64 in *.
  destruct (Z.ltb_spec (Number params) (2 ^ 63)) as [Hlt|Hge].
  - rewrite Z.abs_eq by lia. rewrite Z.mod_small by lia. lia.
  - rewrite Z.abs_neq by lia. rewrite Z.mod_small by lia. lia.
Qed.

(** X15 -- descriptor round trip.  Let a block have no extra bytes, the
    aggregate-signature data [bls], a number below 2^63 and the transaction
    root of its body; let the transaction codec and the bloom conversion
    round-trip on it, and let the engine's Prepare hook fill in only the
    difficulty, with the value the block has.  Then paramsToBlock rebuilds
    the block itself from [blockToParams] of it, reaching Prepare only. *)
Theorem descriptor_round_trip block bls api :
  let h := b_header block in
  let D := blockToParams block in
  h_Extra h = [] ->
  h_BLSData h = bls ->
  0 <= h_Number h < 2 ^ 63 ->
  h_TxHash h = DeriveSha (b_transactions block) ->
  decodeTransactions (encodeTransactions (b_transactions block))
  = inr (b_transactions block) ->
  BytesToBloom (Bloom_Bytes (h_Bloom h)) = h_Bloom h ->
  Prepare (eth api) (headerOfParams D bls)
  = withDifficulty (h_Difficulty h) (headerOfParams D bls) ->
  paramsToBlock D bls api
  = (inr block, logged (CallPrepare (headerOfParams D bls)) api).
Proof.
  intros h D Hextra Hbls Hnum Htx Hcodec Hbloom Hprep. subst h D.
  assert (Hback : int64_of_u64 (big_Uint64 (h_Number (b_header block)))
                 = h_Number (b_header block)).
  { unfold big_Uint64, int64_of_u64, two64.
    rewrite Z.abs_eq by lia. rewrite Z.mod_small by lia.
    destruct (Z.ltb_spec (h_Number (b_header block)) (2 ^ 63)); lia. }
  rewrite paramsToBlock_run, Hprep.
  destruct block as [h txs]. destruct h.
  unfold setRoots, withDifficulty, headerOfParams, blockToParams,
    Block_NumberU64 in *.
  cbn -[int64_of_u64 big_Uint64] in *.
  rewrite Hcodec, Hback, Hbloom. subst. reflexivity.
Qed.


(** X6 -- what the validator touches.  Whatever ValidateL2Block returns, the
    backend is the same, no entry of the cache is removed or overwritten,
    the cache changes only when the answer is valid=true, and no call of
    the store write is journalled. *)
Theorem ValidateL2Block_frame params api r api' :
  ValidateL2Block params api = (r, api') ->
  eth api' = eth api
  /\ verified api ⊆ verified api'
  /\ (r <> inr {| Success := true |} -> verified api' = verified api)
  /\ exists suffix,
       journal api' = journal api ++ suffix
       /\ existsb isStoreWrite suffix = false.
Proof.
  intros Hrun. run_in Hrun. steps Hrun; injection Hrun as <- <-; cbn.
  all: split; [reflexivity|].
  all: split; [first [reflexivity | by apply insert_subseteq]|].
  all: split; [first [reflexivity | intros Hr; by destruct Hr]|].
  all: rewrite <- ?app_assoc; cbn.
  all: first [ exists []; by rewrite app_nil_r
             | eexists; split; [reflexivity|reflexivity] ].
Qed.

(** X7 -- the validator executes verified blocks only.  Every call of
    ProcessBlock that ValidateL2Block makes is for the block materialised
    from the descriptor, against the header of the current head, after a
    cache miss, and after the engine's header verification, the
    transaction-count policy and the body validator have all accepted the
    block. *)
Theorem ValidateL2Block_executes_verified_blocks params api r api' :
  ValidateL2Block params api = (r, api') ->
  exists suffix,
    journal api' = journal api ++ suffix
    /\ forall block parent,
         In (CallProcessBlock block parent) suffix ->
         fst (paramsToBlock params BLSData_zero api) = inr block
         /\ parent = b_header (CurrentBlock (eth api))
         /\ verified api !! Block_Hash block = None
         /\ VerifyHeader (eth api) (b_header block) false = None
         /\ IsValidTxCount (eth api) (length (b_transactions block)) = true
         /\ ValidateBody (eth api) block = None.
Proof.
  intros Hrun. rewrite paramsToBlock_run. run_in Hrun.
  steps Hrun; injection Hrun as <- <-; cbn.
  all: rewrite <- ?app_assoc; cbn.
  all: first [ exists []; split; [by rewrite app_nil_r|intros ? ? []]
             | eexists; split; [reflexivity|] ].
  all: intros block parent Hin; cbn in Hin.
  all: repeat (destruct Hin as [Hin|Hin]; try discriminate Hin).
  all: try contradiction.
  all: injection Hin as <- <-.
  all: done.
Qed.


(** X8 -- validate, then commit.  After ValidateL2Block has answered
    valid=true, the block of the descriptor is in the cache, and NewL2Block
    with the same descriptor and no aggregate-signature data takes the hit
    path: after Prepare its only collaborator call is the store write, with
    the cached receipts, state and duration; it returns what the store
    returns, and the cache is emptied when that is no error. *)
Theorem validate_then_commit params api api1 :
  ValidateL2Block params api = (inr {| Success := true |}, api1) ->
  exists block bas,
    fst (paramsToBlock params BLSData_zero api1) = inr block
    /\ verified api1 !! Block_Hash block = Some bas
    /\ let w := WriteStateAndSetHead (eth api) block (er_receipts bas)
                  (er_state bas) (er_procTime bas) in
       NewL2Block params BLSData_zero api1
       = (fst w,
          {| eth := snd w;
             verified :=
               match fst w with None => ∅ | Some _ => verified api1 end;
             journal := journal api1 ++
               [CallPrepare (headerOfParams params BLSData_zero);
                CallWriteStateAndSetHead block (er_receipts bas)
                  (er_state bas) (er_procTime bas)] |}).
Proof.
  intros Hrun.
  assert (Hfacts :
    eth api1 = eth api
    /\ Number params = u64 (Block_NumberU64 (CurrentBlock (eth api)) + 1)
    /\ ParentHash params = Block_Hash (CurrentBlock (eth api))
    /\ exists block bas,
         fst (paramsToBlock params BLSData_zero api) = inr block
         /\ verified api1 !! Block_Hash block = Some bas).
  { rewrite paramsToBlock_run. run_in Hrun.
    steps Hrun; simplify_eq; cbn.
    all: split; [reflexivity|].
    all: split; [by apply dec_stable|]; split; [by apply dec_stable|].
    all: eexists _, _; split; [reflexivity|].
    - eassumption.
    - apply lookup_insert_eq. }
  destruct Hfacts as (Heth & Hn & Hp & block & bas & Hblock & Hhit).
  exists block, bas. rewrite paramsToBlock_run in *. rewrite Heth.
  split; [exact Hblock|]. split; [exact Hhit|].
  rewrite <- Heth in Hn, Hp.
  rewrite (NewL2Block_hit params BLSData_zero api1 block
             (logged (CallPrepare (headerOfParams params BLSData_zero)) api1)
             bas Hn Hp).
  - rewrite Heth. reflexivity.
  - rewrite paramsToBlock_run, Heth. cbn in Hblock. rewrite Hblock. reflexivity.
  - exact Hhit.
Qed.

(** X9 -- what the committer touches.  When NewL2Block returns an error the
    cache is unchanged; when it succeeds the cache is unchanged or empty, so
    NewL2Block never inserts; and a run that journals no store write leaves
    the backend as it was and is a failed run. *)
Theorem NewL2Block_frame params bls api r api' :
  NewL2Block params bls api = (r, api') ->
  (is_Some r -> verified api' = verified api)
  /\ (r = None -> verified api' = verified api \/ verified api' = ∅)
  /\ exists suffix,
       journal api' = journal api ++ suffix
       /\ (existsb isStoreWrite suffix = false ->
           eth api' = eth api /\ is_Some r).
Proof.
  intros Hrun. run_in Hrun. steps Hrun; injection Hrun as <- <-; cbn.
  all: split; [first [reflexivity | intros [? [=]]]|].
  all: split; [first [by left | by right | discriminate]|].
  all: rewrite <- ?app_assoc; cbn.
  all: first [ exists []; split; [by rewrite app_nil_r|] | eexists; split; [reflexivity|] ].
  all: cbn; first [discriminate | by eauto].
Qed.

(** X10 -- what the committer writes.  Every store write NewL2Block makes
    is for the block materialised from the descriptor, and hands over either
    the receipts, state and duration of the cache entry under that block's
    hash, or, on a miss, what ProcessBlock returned for the block against
    the current head after the engine's header verification and the
    transaction-count policy accepted it. *)
Theorem NewL2Block_writes_cached_or_executed params bls api r api' :
  NewL2Block params bls api = (r, api') ->
  exists suffix,
    journal api' = journal api ++ suffix
    /\ forall block receipts state procTime,
         In (CallWriteStateAndSetHead block receipts state procTime) suffix ->
         fst (paramsToBlock params bls api) = inr block
         /\ ((exists bas,
                verified api !! Block_Hash block = Some bas
                /\ receipts = er_receipts bas /\ state = er_state bas
                /\ procTime = er_procTime bas)
             \/ (verified api !! Block_Hash block = None
                 /\ VerifyHeader (eth api) (b_header block) false = None
                 /\ IsValidTxCount (eth api) (length (b_transactions block))
                    = true
                 /\ ProcessBlock (eth api) block
                      (b_header (CurrentBlock (eth api)))
                    = inr (state, receipts, procTime))).
Proof.
  intros Hrun. rewrite paramsToBlock_run. run_in Hrun.
  steps Hrun; injection Hrun as <- <-; cbn.
  all: rewrite <- ?app_assoc; cbn.
  all: first [ exists []; split; [by rewrite app_nil_r|intros ? ? ? ? []]
             | eexists; split; [reflexivity|] ].
  all: intros block receipts state procTime Hin; cbn in Hin.
  all: repeat (destruct Hin as [Hin|Hin]; try discriminate Hin).
  all: try contradiction.
  all: injection Hin as <- <- <- <-.
  all: split; [done|].
  all: first [ left; eexists; split; [eassumption|done] | right; done ].
Qed.


(** X11 -- the committer does not consult the body validator.  For a block
    that misses the cache, passes the engine's header verification and the
    transaction-count policy, executes and is written, but is refused by
    the body validator: ValidateL2Block answers valid=false, while
    NewL2Block commits it, having reached Prepare, VerifyHeader,
    IsValidTxCount, ProcessBlock and the store write and nothing else. *)
Theorem commit_skips_body_validation
    params api block api1 err stateDB receipts procTime e' :
  let parent := CurrentBlock (eth api) in
  Number params = u64 (Block_NumberU64 parent + 1) ->
  ParentHash params = Block_Hash parent ->
  paramsToBlock params BLSData_zero api = (inr block, api1) ->
  verified api !! Block_Hash block = None ->
  VerifyHeader (eth api) (b_header block) false = None ->
  IsValidTxCount (eth api) (length (b_transactions block)) = true ->
  ValidateBody (eth api) block = Some err ->
  ProcessBlock (eth api) block (b_header parent)
  = inr (stateDB, receipts, procTime) ->
  WriteStateAndSetHead (eth api) block receipts stateDB procTime
  = (None, e') ->
  fst (ValidateL2Block params api) = inr {| Success := false |}
  /\ NewL2Block params BLSData_zero api
     = (None,
        {| eth := e';
           verified := verified api;
           journal := journal api ++
             [CallPrepare (headerOfParams params BLSData_zero);
              CallVerifyHeader (b_header block) false;
              CallIsValidTxCount (length (b_transactions block));
              CallProcessBlock block (b_header parent);
              CallWriteStateAndSetHead block receipts stateDB procTime] |}).
Proof.
  intros parent Hn Hp Hblock Hmiss Hv Hc Hb Hx Hw. subst parent.
  rewrite paramsToBlock_run in Hblock.
  destruct (decodeTransactions (Transactions params)) as [e|txs] eqn:Hdec;
    [discriminate|].
  injection Hblock as <- <-.
  run.
  destruct (decide (Number params <> _)); [contradiction|].
  destruct (decide (ParentHash params <> _)); [contradiction|].
  rewrite Hdec. cbn in *. rewrite Hmiss. cbn.
  rewrite Hv. cbn. rewrite Hc. cbn. rewrite Hb, Hx. cbn. rewrite Hw.
  split; [reflexivity|]. rewrite <- !app_assoc. reflexivity.
Qed.

(** X12 -- cache keys.  If every cache entry sits under the content hash
    of the block it stores, the same holds after AssembleL2Block, after
    ValidateL2Block and after NewL2Block, whatever their arguments and
    results. *)
Theorem cache_stays_keyed api :
  cacheKeyed api ->
  (forall params start now finish,
     cacheKeyed (snd (AssembleL2Block params start now finish api)))
  /\ (forall params, cacheKeyed (snd (ValidateL2Block params api)))
  /\ (forall params bls, cacheKeyed (snd (NewL2Block params bls api))).
Proof.
  intros Hkeyed.
  assert (Hins : forall (block : Block Transaction) st rc pt,
            forall k r,
              <[Block_Hash block :=
                  {| er_block := block; er_state := st; er_receipts := rc;
                     er_procTime := pt |}]> (verified api) !! k = Some r ->
              k = Block_Hash (er_block r)).
  { intros block st rc pt k r Hk.
    destruct (decide (Block_Hash block = k)) as [<-|Hne].
    - rewrite lookup_insert_eq in Hk. by injection Hk as <-.
    - rewrite lookup_insert_ne in Hk by done. by apply Hkeyed. }
  split; [|split].
  - intros params start now finish.
    destruct (AssembleL2Block params start now finish api) as [r api'] eqn:Hrun.
    run_in Hrun. steps Hrun; injection Hrun as <- <-; cbn.
    all: unfold cacheKeyed; cbn; first [exact Hkeyed | apply Hins].
  - intros params.
    destruct (ValidateL2Block params api) as [r api'] eqn:Hrun.
    run_in Hrun. steps Hrun; injection Hrun as <- <-; cbn.
    all: unfold cacheKeyed; cbn; first [exact Hkeyed | apply Hins].
  - intros params bls.
    destruct (NewL2Block params bls api) as [r api'] eqn:Hrun.
    run_in Hrun. steps Hrun; injection Hrun as <- <-; cbn.
    all: unfold cacheKeyed; cbn;
      first [exact Hkeyed | intros k r Hk; by rewrite lookup_empty in Hk].
Qed.

(** X13 -- no replay.  After NewL2Block has committed a descriptor, if the
    store made the materialised block the head and that block's NumberU64 is
    the descriptor's number, then validating or committing the same
    descriptor again is answered with the discontinuity error and changes
    nothing. *)
Theorem committed_descriptor_is_not_replayed
    params bls api api' block api1 :
  NewL2Block params bls api = (None, api') ->
  paramsToBlock params bls api = (inr block, api1) ->
  CurrentBlock (eth api') = block ->
  Block_NumberU64 block = Number params ->
  let err :=
    ErrDiscontinuous (Number params) (u64 (Number params + 1)) in
  ValidateL2Block params api' = (inl err, api')
  /\ forall bls', NewL2Block params bls' api' = (Some err, api').
Proof.
  intros Hrun Hblock Hhead Hnum err. subst err.
  assert (Hn : Number params
               = u64 (Block_NumberU64 (CurrentBlock (eth api)) + 1)).
  { run_in Hrun. destruct (decide (Number params <> _)) as [|Hn];
      [discriminate|]. by apply dec_stable. }
  assert (Hne : Number params
                <> u64 (Block_NumberU64 (CurrentBlock (eth api')) + 1)).
  { rewrite Hhead, Hnum. unfold u64, two64 in *.
    assert (0 <= Number params < 2 ^ 64)
      by (rewrite Hn; apply Z.mod_pos_bound; lia).
    destruct (decide (Number params + 1 < 2 ^ 64)).
    - rewrite Z.mod_small by lia. lia.
    - replace (Number params + 1) with (2 ^ 64) by lia.
      rewrite Z.mod_same by lia. lia. }
  pose proof (discontinuous_number_rejected params bls api' Hne) as Hrej.
  cbn zeta in Hrej. rewrite Hhead, Hnum in Hrej.
  destruct Hrej as (Hv & _ & _). split; [exact Hv|].
  intros bls'.
  pose proof (discontinuous_number_rejected params bls' api' Hne) as Hrej.
  cbn zeta in Hrej. rewrite Hhead, Hnum in Hrej. tauto.
Qed.

End MoreProperties.

Section RegistrationProperties.
Context `{E : Ethereum}.
Variable TerminalTotalDifficulty : Eth -> option Z.

(** X1 -- registration.  RegisterL2Engine succeeds exactly when the chain
    configuration has a terminal total difficulty.  Without one it returns
    an error and registers nothing; with one it appends a single API to the
    node, in the namespace engine, authenticated, served by a fresh
    consensus API over the backend with an empty cache. *)
Theorem RegisterL2Engine_needs_total_difficulty stack backend :
  let r := RegisterL2Engine TerminalTotalDifficulty stack backend in
  (fst r = None <-> is_Some (TerminalTotalDifficulty backend))
  /\ (TerminalTotalDifficulty backend = None -> snd r = stack)
  /\ (is_Some (TerminalTotalDifficulty backend) ->
      exists api,
        snd r = stack ++ [api]
        /\ Namespace api = "engine"%string /\ Authenticated api = true
        /\ Service api = newL2ConsensusAPI backend
        /\ verified (Service api) = ∅).
Proof.
  unfold RegisterL2Engine, RegisterAPIs.
  destruct (TerminalTotalDifficulty backend) as [ttd|]; cbn.
  - split; [split; eauto|]. split; [discriminate|].
    intros _. eexists. split; [reflexivity|]. done.
  - split; [split; [discriminate|intros [? [=]]]|]. split; [done|].
    intros [? [=]].
Qed.

End RegistrationProperties.

(** * Further runs *)

Module MoreRuns.
Import Devnet.

(** Witness of X2. *)
Lemma AssembleL2Block_discontinuous_witness :
  AssembleL2Block malformedSkippingOrder 10 20 30 node
  = (inl (ErrDiscontinuous 7 1), node).
Proof.
  exact (AssembleL2Block_discontinuous malformedSkippingOrder 10 20 30 node
           ltac:(vm_compute; discriminate)).
Defined.

(** Witness of X4: the request for two transactions on the backend whose
    miner is stopped. *)
Lemma AssembleL2Block_executor_failure_witness :
  fst (AssembleL2Block order 10 20 30 Strictnet.node)
  = inl (ErrOther "miner stopped")
  /\ verified (snd (AssembleL2Block order 10 20 30 Strictnet.node)) = ∅.
Proof.
  rewrite (AssembleL2Block_executor_failure (E := Strictnet.chain) order 10 20
             30 Strictnet.node [Byte.x01; Byte.x02]
             (ErrOther "miner stopped")
             ltac:(vm_compute; reflexivity) eq_refl eq_refl).
  split; reflexivity.
Defined.

(** Witness of X5. *)
Lemma AssembleL2Block_frame_witness :
  eth (snd (AssembleL2Block order 10 20 30 node)) = eth node.
Proof.
  exact (proj1 (AssembleL2Block_frame order 10 20 30 node _ _
                  (surjective_pairing _))).
Defined.

(** Witness of X14: candidate A materialises to a block numbered 1. *)
Lemma materialised_number_witness :
  exists block,
    fst (paramsToBlock candidateA [] node) = inr block
    /\ Block_NumberU64 block = 1.
Proof.
  eexists. split; [reflexivity|].
  apply (materialised_number candidateA [] node _ _ eq_refl eq_refl).
  - vm_compute. split; [discriminate|reflexivity].
  - vm_compute. discriminate.
Defined.

(** Witness of X15: the block sealed by the miner that adds no extra data. *)
Lemma descriptor_round_trip_witness :
  fst (paramsToBlock (orderDescriptor (eth node)) [] node)
  = inr (orderBlock (eth node)).
Proof.
  unfold orderDescriptor.
  rewrite (descriptor_round_trip (H := types) (E := Devnet.chain)
             (orderBlock (eth node)) [] node).
  - reflexivity.
  - reflexivity.
  - reflexivity.
  - vm_compute. split; [discriminate|reflexivity].
  - reflexivity.
  - reflexivity.
  - reflexivity.
  - reflexivity.
Defined.

(** Witness of X6. *)
Lemma ValidateL2Block_frame_witness :
  eth (snd (ValidateL2Block candidateA node)) = eth node
  /\ verified node ⊆ verified (snd (ValidateL2Block candidateA node)).
Proof.
  destruct (ValidateL2Block_frame candidateA node _ _ (surjective_pairing _))
    as (Heth & Hsub & _).
  split; [exact Heth|exact Hsub].
Defined.

(** Witness of X7. *)
Lemma ValidateL2Block_executes_verified_blocks_witness :
  exists suffix,
    journal (snd (ValidateL2Block candidateA node)) = journal node ++ suffix
    /\ forall block parent,
         In (CallProcessBlock block parent) suffix ->
         parent = b_header genesis
         /\ ValidateBody (eth node) block = None.
Proof.
  destruct (ValidateL2Block_executes_verified_blocks candidateA node _ _
              (surjective_pairing _)) as (suffix & Hj & Hexec).
  exists suffix. split; [exact Hj|].
  intros block parent Hin.
  destruct (Hexec block parent Hin) as (_ & Hp & _ & _ & _ & Hb).
  split; [exact Hp|exact Hb].
Defined.

(** Witness of X8: candidate A is validated, then committed from the
    cache; the commit adds no call of the executor. *)
Lemma validate_then_commit_witness :
  let api1 := snd (ValidateL2Block candidateA node) in
  exists api2,
    NewL2Block candidateA [] api1 = (None, api2)
    /\ verified api2 = ∅
    /\ reachedExecutor api2 = reachedExecutor api1.
Proof.
  intros api1.
  assert (Hrun : ValidateL2Block candidateA node
                 = (inr {| Success := true |}, api1)).
  { rewrite <- DevnetRuns.validated_A. apply surjective_pairing. }
  destruct (validate_then_commit candidateA node api1 Hrun)
    as (block & bas & _ & _ & Hnew).
  cbn zeta in Hnew. change BLSData_zero with ([] : BLSData) in Hnew.
  rewrite Hnew. eexists. split; [reflexivity|]. split; [reflexivity|].
  unfold reachedExecutor. cbn [journal]. rewrite existsb_app. cbn.
  apply orb_false_r.
Defined.

(** Witness of X9: the failed commit of the stale candidate. *)
Lemma NewL2Block_frame_witness :
  verified (snd (NewL2Block staleCandidate [] node)) = verified node.
Proof.
  destruct (NewL2Block_frame staleCandidate [] node _ _
              (surjective_pairing _)) as (Hkeep & _).
  apply Hkeep. vm_compute. eexists. reflexivity.
Defined.

(** Witness of X10: the commit of candidate B on a fresh node. *)
Lemma NewL2Block_writes_cached_or_executed_witness :
  exists suffix,
    journal (snd (NewL2Block candidateB [] node)) = journal node ++ suffix
    /\ forall block receipts state procTime,
         In (CallWriteStateAndSetHead block receipts state procTime) suffix ->
         ProcessBlock (eth node) block (b_header genesis)
         = inr (state, receipts, procTime).
Proof.
  destruct (NewL2Block_writes_cached_or_executed candidateB [] node _ _
              (surjective_pairing _)) as (suffix & Hj & Hwrite).
  exists suffix. split; [exact Hj|].
  intros block receipts state procTime Hin.
  destruct (Hwrite block receipts state procTime Hin)
    as (_ & [(bas & Hhit & _)|(_ & _ & _ & Hx)]).
  - unfold node, newL2ConsensusAPI in Hhit. cbn [verified] in Hhit.
    rewrite lookup_empty in Hhit. discriminate.
  - exact Hx.
Defined.

(** Witness of X11: the candidate with two transactions on the stricter
    backend. *)
Lemma commit_skips_body_validation_witness :
  fst (ValidateL2Block Strictnet.pairCandidate Strictnet.node)
  = inr {| Success := false |}
  /\ fst (NewL2Block Strictnet.pairCandidate [] Strictnet.node) = None.
Proof.
  edestruct (commit_skips_body_validation (E := Strictnet.chain)
               Strictnet.pairCandidate Strictnet.node) as (Hv & Hn).
  - vm_compute. reflexivity.
  - vm_compute. reflexivity.
  - reflexivity.
  - vm_compute. reflexivity.
  - vm_compute. reflexivity.
  - vm_compute. reflexivity.
  - vm_compute. reflexivity.
  - vm_compute. reflexivity.
  - vm_compute. reflexivity.
  - split; [exact Hv|]. change ([] : BLSData) with BLSData_zero.
    rewrite Hn. reflexivity.
Defined.

(** Witness of X12. *)
Lemma cache_stays_keyed_witness :
  cacheKeyed (snd (ValidateL2Block candidateA node))
  /\ cacheKeyed (snd (AssembleL2Block order 10 20 30 node)).
Proof.
  destruct (cache_stays_keyed node) as (Hassemble & Hvalidate & _).
  - intros k r Hk. unfold node, newL2ConsensusAPI in Hk. cbn [verified] in Hk.
    rewrite lookup_empty in Hk. discriminate.
  - split; [apply Hvalidate|apply Hassemble].
Defined.

(** Witness of X13: candidate B is committed, then offered again. *)
Lemma committed_descriptor_is_not_replayed_witness :
  let api' := snd (NewL2Block candidateB [] node) in
  ValidateL2Block candidateB api' = (inl (ErrDiscontinuous 1 2), api')
  /\ NewL2Block candidateB [] api' = (Some (ErrDiscontinuous 1 2), api').
Proof.
  intros api'.
  assert (Hrun : NewL2Block candidateB [] node = (None, api')).
  { assert (Hfst : fst (NewL2Block candidateB [] node) = None)
      by (vm_compute; reflexivity).
    rewrite <- Hfst. apply surjective_pairing. }
  edestruct (committed_descriptor_is_not_replayed candidateB [] node api')
    as (Hv & Hn).
  - exact Hrun.
  - reflexivity.
  - vm_compute. reflexivity.
  - vm_compute. reflexivity.
  - split; [exact Hv|exact (Hn [])].
Defined.

End MoreRuns.
